(** * hilicurl: an HTTP "ping"

    A shallow embedding of [hilicurl.go] (the current program) and of the
    earlier iterations of the same file that the repository keeps, followed
    by the properties of its probe loop, its probe executor and its
    statistics.

    Conventions.
    - Go's [int] counters are [Z]; a slice length never leaves the range of
      [int], so no wrap-around is involved in the counters below.
    - Go's [float64] is Rocq's primitive binary64 [float].
    - [time.Time] is an instant in nanoseconds, [time.Duration] a number of
      nanoseconds held in an [int64].
    - A nil pointer is [None].
    - What the standard library ([net/http], [context], [time], [flag])
      returns is not computed by the program: it is an input of the model,
      shaped by the documented contract of each call. *)

From stdpp Require Import base list.
From Stdlib Require Import ZArith String Lia Bool.
From Stdlib Require Import PrimFloat Uint63.

Local Open Scope Z_scope.

(** ** The parts of Go's standard library the program calls *)

Module time.

Definition Time := Z.
Definition Duration := Z.

Definition Nanosecond : Duration := 1.
Definition Millisecond : Duration := 1000000.
Definition Second : Duration := 1000000000.

Definition minDuration : Duration := - 2 ^ 63.
Definition maxDuration : Duration := 2 ^ 63 - 1.

(** The zero value of [time.Time] (what [var t3 time.Time] holds). *)
Definition zero : Time := 0.

(** [t.Sub(u)]: the difference, saturated to the range of [Duration]. *)
Definition Sub (t u : Time) : Duration :=
  let d := t - u in
  if d <? minDuration then minDuration
  else if maxDuration <? d then maxDuration
  else d.

(** [d.Milliseconds()]: integer division, truncated toward zero. *)
Definition Milliseconds (d : Duration) : Z := Z.quot d Millisecond.

(** [t.Add(d)]. *)
Definition Add (t : Time) (d : Duration) : Time := t + d.

End time.

Module context.

(** A context of this program is [Background], the run's cancellable
    context made from it by [WithCancel], or a child of that one made by
    [WithTimeout].  [cancelable] tells whether the run's [cancel] closes
    its [Done] channel; [deadline] is its deadline, if it has one. *)
Record Context := mkContext {
  cancelable : bool;
  deadline : option time.Time
}.

Definition Background : Context := mkContext false None.

Definition WithCancel (parent : Context) : Context :=
  mkContext true (deadline parent).

(** [WithTimeout(parent, d)] is [WithDeadline(parent, now.Add(d))]: the
    deadline is adjusted to be no later than that instant. *)
Definition WithTimeout (parent : Context) (now : time.Time)
    (timeout : time.Duration) : Context :=
  let d := time.Add now timeout in
  mkContext (cancelable parent)
    (Some (match deadline parent with
           | Some d0 => Z.min d0 d
           | None => d
           end)).

(** Whether [ctx.Done()] is closed at instant [now], when the run's
    [cancel] has ([cancelled = true]) or has not been called. *)
Definition Done (ctx : Context) (cancelled : bool) (now : time.Time) : bool :=
  (cancelable ctx && cancelled)
  || match deadline ctx with
     | Some d => d <=? now
     | None => false
     end.

End context.

Module http.

Record Request := mkRequest {
  Method : string;
  URL : string;
  Context : context.Context
}.

Record Response := mkResponse {
  Status : string;
  StatusCode : Z
}.

(** What [Client.Do] returns.  With a nil error the response is not nil.
    With an error the response is nil, except when the redirect policy
    fails, where the last response comes with the error. *)
Inductive DoResult :=
| DoOK (res : Response)
| DoErr (res : option Response) (err : string).

Definition do_res (r : DoResult) : option Response :=
  match r with
  | DoOK res => Some res
  | DoErr res _ => res
  end.

Definition do_err (r : DoResult) : option string :=
  match r with
  | DoOK _ => None
  | DoErr _ err => Some err
  end.

End http.

(** What the world does during one probe: everything [request] obtains from
    the libraries. *)
Record Exchange := mkExchange {
  (** the error of [http.NewRequestWithContext] (the URL does not parse) *)
  newRequestErr : option string;
  (** the instant [time.Now()] returns before the request is sent *)
  nowBefore : time.Time;
  (** the instants at which the transport calls the [GotConn] hook, in
      order: one for each connection obtained, new or reused *)
  gotConn : list time.Time;
  (** the result of [http.DefaultClient.Do] or [http.Get] *)
  doResult : http.DoResult;
  (** the result of [ioutil.ReadAll(res.Body)]: the bytes read and the error *)
  readAll : list Byte.byte * option string;
  (** the instant [time.Now()] returns once the last call is over *)
  nowAfter : time.Time
}.

(** ** Effects: output, panics, and goroutines that block for ever *)

(** The line of statistics, as [printStatistics] formats it:
    [%d requests transmitted, %d responses received, %.2f%% timeout]. *)
Record Statistics := mkStatistics {
  nReq : Z;
  nRes : Z;
  timeoutRate : float
}.

(** A line of output: [Log...] lines go through package [log], [Print...]
    lines through [fmt] to the standard output, and [RuntimePanic] is the
    report of the runtime when a panic is not recovered. *)
Inductive Line :=
| LogGET (url : string)
| LogERROR (err : string)
| LogTime (status : string) (ms : Z)
| LogLengthTime (status : string) (length : Z) (ms : Z)
| LogCtrlC
| LogShutdown
| LogPanic (msg : string)
| RuntimePanic (r : string)
| PrintError (r : string)
| PrintUsage
| PrintHeader (url : string)
| PrintStatistics (st : Statistics).

Inductive Outcome (A : Type) :=
| Returned (a : A)
| Panicked (r : string)
| Blocked.
Arguments Returned {A} a.
Arguments Panicked {A} r.
Arguments Blocked {A}.

(** A computation that writes lines and then returns, panics, or blocks. *)
Definition M (A : Type) : Type := list Line -> Outcome A * list Line.

#[global] Instance M_ret : MRet M := fun A a l => (Returned a, l).

#[global] Instance M_bind : MBind M := fun A B k m l =>
  match m l with
  | (Returned a, l') => k a l'
  | (Panicked r, l') => (Panicked r, l')
  | (Blocked, l') => (Blocked, l')
  end.

Definition panic {A} (r : string) : M A := fun l => (Panicked r, l).

Definition block {A} : M A := fun l => (Blocked, l).

Definition output (line : Line) : M unit :=
  fun l => (Returned tt, l ++ [line]).

(** [log.Panic(msg)]: the message is logged, then [panic(msg)]. *)
Definition logPanic {A} (msg : string) : M A :=
  _ ← output (LogPanic msg); panic msg.

Definition nilDeref : string :=
  "runtime error: invalid memory address or nil pointer dereference".
Definition divideByZero : string :=
  "runtime error: integer divide by zero".

(** Dereferencing a pointer: a nil one panics. *)
Definition deref {A} (p : option A) : M A :=
  match p with
  | Some a => mret a
  | None => panic nilDeref
  end.

(** [float64(n)] for an [int] [n]. *)
Definition float64 (n : Z) : float :=
  if n <? 0 then PrimFloat.opp (PrimFloat.of_uint63 (Uint63.of_Z (- n)))
  else PrimFloat.of_uint63 (Uint63.of_Z n).

(** What the calls of one probe return, read off the [Exchange]. *)
Module client.

(** [http.NewRequestWithContext(ctx, "GET", url, nil)]: the method is valid
    and the context is not nil, so it fails only on the URL. *)
Definition NewRequestWithContext (x : Exchange) (ctx : context.Context)
    (method url : string) : option http.Request * option string :=
  match newRequestErr x with
  | Some err => (None, Some err)
  | None => (Some (http.mkRequest method url ctx), None)
  end.

(** [http.DefaultClient.Do(req)]: it starts by reading [req.URL], so a nil
    request is a nil dereference. *)
Definition Do (x : Exchange) (req : option http.Request) : M http.DoResult :=
  _ ← deref req;
  mret (doResult x).

(** [http.Get(url)]: a URL that does not parse is returned as an error. *)
Definition Get (x : Exchange) (url : string) : http.DoResult :=
  match newRequestErr x with
  | Some err => http.DoErr None err
  | None => doResult x
  end.

End client.

(** One turn of a loop that probes in line: the loop finds the context
    cancelled, or it makes a probe, which the world answers by [x]. *)
Inductive Turn :=
| Cancelled
| Probe (x : Exchange).

(** ** [hilicurl.go] *)

Module Hilicurl.

Definition defaultInterval : time.Duration := 2 * time.Second.
Definition defaultTimeout : time.Duration := 60 * time.Second.

(** [type Record struct] *)
Record Record_ := mkRecord {
  Request : option http.Request;
  Response : option http.Response;
  ElapsedTime : time.Duration
}.

(** The loop of [printStatistics]. *)
Fixpoint countResponses (records : list Record_) (nRes : Z) : Z :=
  match records with
  | [] => nRes
  | rec :: rest =>
      countResponses rest
        (match Response rec with
         | Some _ => nRes + 1
         | None => nRes
         end)
  end.

Definition printStatistics (records : list Record_) : Statistics :=
  let nReq := Z.of_nat (List.length records) in
  let nRes := countResponses records 0 in
  let nTimeout := nReq - nRes in
  let timeoutRate :=
    PrimFloat.mul (PrimFloat.div (float64 nTimeout) (float64 nReq))
                  (float64 100) in
  mkStatistics nReq nRes timeoutRate.

(** [request].  The [GotConn] hook of the trace assigns [t3] each time the
    transport obtains a connection during [Do]. *)
Definition request (x : Exchange) (ctx : context.Context) (url : string)
    : M Record_ :=
  let t3 := time.zero in
  let '(req, _) := client.NewRequestWithContext x ctx "GET" url in
  r ← client.Do x req;
  let t3 := fold_left (fun _ now => now) (gotConn x) t3 in
  let res := http.do_res r in
  match http.do_err r with
  | Some err =>
      _ ← output (LogERROR err);
      mret (mkRecord req res 0)
  | None =>
      body ← deref res;
      let '(bytes, err) := readAll x in
      match err with
      | Some err =>
          _ ← output (LogERROR err);
          mret (mkRecord req res 0)
      | None =>
          let t7 := nowAfter x in
          let elapsed := time.Sub t7 t3 in
          _ ← output (LogLengthTime (http.Status body)
                        (Z.of_nat (List.length bytes))
                        (time.Milliseconds elapsed));
          mret (mkRecord req res elapsed)
      end
  end.

(** *** [main] *)

(** The command line, once [flag.Parse()] has accepted it: the flags and
    [flag.Args()]. *)
Record Flags := mkFlags {
  flagHelp : bool;
  flagInterval : time.Duration;
  flagTimeout : time.Duration;
  flagArgs : list string
}.

(** The arguments of [runRequests]. *)
Record Args := mkArgs {
  ctx : context.Context;
  url : string;
  interval : time.Duration;
  timeout : time.Duration
}.

(** [main] up to its call of [runRequests]: [None] when it returns before. *)
Definition main_body (f : Flags) : M (option Args) :=
  let ctx := context.WithCancel context.Background in
  if flagHelp f then
    _ ← output PrintUsage;
    mret None
  else if negb (Z.of_nat (List.length (flagArgs f)) =? 1) then
    logPanic "url argument is required"
  else
    let url := nth 0 (flagArgs f) EmptyString in
    mret (Some (mkArgs ctx url (flagInterval f) (flagTimeout f))).

Inductive Process :=
| Exit (code : Z) (out : list Line)
| Run (a : Args) (out : list Line)
| Hang (out : list Line).

(** [main] with its deferred [recover]: a panic prints the error and the
    usage and exits with code 1; a return exits with code 0. *)
Definition main (f : Flags) : Process :=
  match main_body f [] with
  | (Returned None, out) => Exit 0 out
  | (Returned (Some a), out) => Run a out
  | (Panicked r, out) => Exit 1 (out ++ [PrintError r; PrintUsage])
  | (Blocked, out) => Hang out
  end.

(** *** [runRequests] and its goroutines *)

(** The goroutine [go func() { ... }()] of one probe, by the point it has
    reached.  The statement [records = append(records, res)] is not
    synchronised: it reads the shared slice, and writes the longer one back
    later. *)
Inductive Task :=
| Spawned
| Requesting (tCtx : context.Context)
| Appending (res : Record_)
| Storing (res : Record_) (old : list Record_)
| Exited.

(** The loop of [runRequests]: at its [select], or in [time.Sleep]. *)
Inductive Scheduler :=
| Selecting
| Sleeping (until : time.Time).

Record State := mkState {
  now : time.Time;
  cancelled : bool;
  sched : Scheduler;
  records : list Record_;
  tasks : list Task;
  out : list Line;
  exited : option Z
}.

Inductive Event :=
| Interrupt
| Tick (d : time.Duration)
| Sched
| Go (i : nat)
| Respond (i : nat) (x : Exchange).

Definition setTask (i : nat) (t : Task) (s : State) : State :=
  mkState (now s) (cancelled s) (sched s) (records s) (<[i:=t]> (tasks s))
          (out s) (exited s).

Definition setSched (c : Scheduler) (s : State) : State :=
  mkState (now s) (cancelled s) c (records s) (tasks s) (out s) (exited s).

Definition setOut (o : list Line) (s : State) : State :=
  mkState (now s) (cancelled s) (sched s) (records s) (tasks s) o (exited s).

(** The state in which [runRequests] reaches its loop. *)
Definition enter (a : Args) (t0 : time.Time) (o : list Line) : State :=
  mkState t0 false Selecting [] [] (o ++ [LogGET (url a)]) None.

(** The [default] branch: the goroutine is started and the loop sleeps. *)
Definition dispatch (a : Args) (s : State) : State :=
  mkState (now s) (cancelled s) (Sleeping (time.Add (now s) (interval a)))
          (records s) (tasks s ++ [Spawned]) (out s) (exited s).

(** The [<-ctx.Done()] branch: the statistics are printed, [runRequests] and
    [main] return, and the process exits with code 0. *)
Definition report (a : Args) (s : State) : State :=
  mkState (now s) (cancelled s) (sched s) (records s) (tasks s)
          (out s ++ [PrintHeader (url a);
                     PrintStatistics (printStatistics (records s))])
          (Some 0).

Definition stepSched (a : Args) (s : State) : option State :=
  match sched s with
  | Selecting =>
      if context.Done (ctx a) (cancelled s) (now s)
      then Some (report a s)
      else Some (dispatch a s)
  | Sleeping until =>
      if until <=? now s then Some (setSched Selecting s) else None
  end.

Definition stepGo (a : Args) (s : State) (i : nat) : option State :=
  match tasks s !! i with
  | Some Spawned =>
      Some (setTask i
              (Requesting (context.WithTimeout (ctx a) (now s) (timeout a))) s)
  | Some (Appending res) =>
      Some (setTask i (Storing res (records s)) s)
  | Some (Storing res old) =>
      Some (mkState (now s) (cancelled s) (sched s) (old ++ [res])
                    (<[i:=Exited]> (tasks s)) (out s) (exited s))
  | _ => None
  end.

(** The request of goroutine [i] comes to its end.  A panic in a goroutine
    is not recovered by [main]: the process dies with code 2. *)
Definition stepRespond (a : Args) (s : State) (i : nat) (x : Exchange)
    : option State :=
  match tasks s !! i with
  | Some (Requesting tCtx) =>
      match request x tCtx (url a) (out s) with
      | (Returned res, o) => Some (setOut o (setTask i (Appending res) s))
      | (Panicked r, o) =>
          Some (mkState (now s) (cancelled s) (sched s) (records s) (tasks s)
                        (o ++ [RuntimePanic r]) (Some 2))
      | (Blocked, o) => None
      end
  | _ => None
  end.

Definition step (a : Args) (s : State) (e : Event) : option State :=
  match exited s with
  | Some _ => None
  | None =>
      match e with
      | Interrupt =>
          if cancelled s then Some s
          else Some (mkState (now s) true (sched s) (records s) (tasks s)
                             (out s ++ [LogCtrlC]) (exited s))
      | Tick d =>
          if 0 <=? d
          then Some (mkState (now s + d) (cancelled s) (sched s) (records s)
                             (tasks s) (out s) (exited s))
          else None
      | Sched => stepSched a s
      | Go i => stepGo a s i
      | Respond i x => stepRespond a s i x
      end
  end.

Fixpoint run (a : Args) (s : State) (evs : list Event) : option State :=
  match evs with
  | [] => Some s
  | e :: evs' =>
      match step a s e with
      | Some s' => run a s' evs'
      | None => None
      end
  end.

End Hilicurl.

(** ** The earlier iterations of the program *)

(** Integer division of Go: truncated, and a panic on a zero divisor. *)
Definition intDiv (a b : Z) : M Z :=
  if b =? 0 then panic divideByZero else mret (Z.quot a b).

(** The counting loop of the iterations that keep [[]*http.Response]. *)
Fixpoint countNonNil (responses : list (option http.Response)) (nRes : Z) : Z :=
  match responses with
  | [] => nRes
  | res :: rest =>
      countNonNil rest (match res with Some _ => nRes + 1 | None => nRes end)
  end.

(** Their [printStatistics]: the quotient is taken on [int]s. *)
Definition printStatisticsInt (responses : list (option http.Response))
    : M unit :=
  let nReq := Z.of_nat (List.length responses) in
  let nRes := countNonNil responses 0 in
  let nTout := nReq - nRes in
  q ← intDiv nTout nReq;
  output (PrintStatistics
            (mkStatistics nReq nRes (PrimFloat.mul (float64 q) (float64 100)))).

(** The iteration with the trace and with [[]*http.Response]. *)
Module Part001.

Definition request (x : Exchange) (ctx : context.Context) (url : string)
    : M (option http.Response) :=
  let t3 := time.zero in
  let '(req, _) := client.NewRequestWithContext x ctx "GET" url in
  r ← client.Do x req;
  let t3 := fold_left (fun _ now => now) (gotConn x) t3 in
  let res := http.do_res r in
  match http.do_err r with
  | Some err =>
      _ ← output (LogERROR err);
      mret None
  | None =>
      body ← deref res;
      let '(bytes, err) := readAll x in
      match err with
      | Some err =>
          _ ← output (LogERROR err);
          mret None
      | None =>
          let t7 := nowAfter x in
          let elapsed := time.Sub t7 t3 in
          _ ← output (LogLengthTime (http.Status body)
                        (Z.of_nat (List.length bytes))
                        (time.Milliseconds elapsed));
          mret res
      end
  end.

Definition printStatistics := printStatisticsInt.

End Part001.

(** The iteration that hands the response over a channel.  The channel [c]
    is unbuffered and its only receiver is the statement after the call of
    [request], in the same goroutine: a send on it never completes. *)
Module Part000.

Definition request (x : Exchange) (ctx : context.Context) (url : string)
    : M unit :=
  let '(req, _) := client.NewRequestWithContext x ctx "GET" url in
  let start := nowBefore x in
  r ← client.Do x req;
  let res := http.do_res r in
  _ ← match http.do_err r with
      | Some err =>
          _ ← output (LogERROR err);
          block
      | None => mret tt
      end;
  let elapsed := time.Sub (nowAfter x) start in
  body ← deref res;
  _ ← output (LogTime (http.Status body) (time.Milliseconds elapsed));
  block.

Definition printStatistics := printStatisticsInt.

End Part000.

(** The iteration that probes in line and keeps the responses. *)
Module Part003.

Definition defaultSleep : time.Duration := 2 * time.Second.

Definition request (x : Exchange) (url : string) : M (option http.Response) :=
  let start := nowBefore x in
  let r := client.Get x url in
  let res := http.do_res r in
  match http.do_err r with
  | Some err =>
      _ ← output (LogERROR err);
      mret None
  | None =>
      let elapsed := time.Sub (nowAfter x) start in
      body ← deref res;
      _ ← output (LogTime (http.Status body) (time.Milliseconds elapsed));
      mret res
  end.

Definition printStatistics := printStatisticsInt.

(** The loop of [runRequests], along the turns the world gives it; [true]
    when it returned, [false] when it is still looping after them. *)
Fixpoint loop (url : string) (responses : list (option http.Response))
    (world : list Turn) : M bool :=
  match world with
  | [] => mret false
  | Cancelled :: _ =>
      _ ← output (PrintHeader url);
      _ ← printStatistics responses;
      mret true
  | Probe x :: rest =>
      res ← request x url;
      loop url (responses ++ [res]) rest
  end.

(** [responses := make([]*http.Response, 10)]: ten nil entries. *)
Definition runRequests (url : string) (world : list Turn) : M bool :=
  _ ← output (LogGET url);
  loop url (replicate 10 None) world.

End Part003.

(** The first iteration: probes in line, no statistics. *)
Module Part002.

Definition defaultSleep : time.Duration := 2 * time.Second.

Definition request (x : Exchange) (url : string) : M unit :=
  let start := nowBefore x in
  let r := client.Get x url in
  let res := http.do_res r in
  _ ← match http.do_err r with
      | Some err => output (LogERROR err)
      | None => mret tt
      end;
  let elapsed := time.Sub (nowAfter x) start in
  body ← deref res;
  output (LogTime (http.Status body) (time.Milliseconds elapsed)).

(** The loop of [main], along the turns the world gives it.  The context
    is cancelled by the goroutine of [setupCloseHandler] only, which logs
    the Ctrl+C line first: in a [Cancelled] turn the interrupt has arrived
    after the lines before it were logged, the handler logs and cancels,
    and the [select] finds the context done. *)
Fixpoint loop (url : string) (world : list Turn) : M bool :=
  match world with
  | [] => mret false
  | Cancelled :: _ =>
      _ ← output LogCtrlC;
      _ ← output LogShutdown;
      mret true
  | Probe x :: rest =>
      _ ← request x url;
      loop url rest
  end.

(** [main], for a command line that [flag.Parse()] accepted. *)
Definition main_body (help : bool) (args : list string) (world : list Turn)
    : M bool :=
  if help then
    _ ← output PrintUsage;
    mret true
  else if negb (Z.of_nat (List.length args) =? 1) then
    logPanic "url argument is required"
  else
    let url := nth 0 args EmptyString in
    _ ← output (LogGET url);
    loop url world.

(** The exit code, if the process has exited, and the output. *)
Definition main (help : bool) (args : list string) (world : list Turn)
    : option Z * list Line :=
  match main_body help args world [] with
  | (Returned true, out) => (Some 0, out)
  | (Returned false, out) => (None, out)
  | (Panicked r, out) => (Some 1, out ++ [PrintError r; PrintUsage])
  | (Blocked, out) => (None, out)
  end.

End Part002.

(** ** Measures and scenarios used in the statements *)

(** The goroutines that have run to their end. *)
Fixpoint finished (ts : list Hilicurl.Task) : nat :=
  match ts with
  | [] => 0
  | Hilicurl.Exited :: rest => S (finished rest)
  | _ :: rest => finished rest
  end.

(** The slice a goroutine holds between its read and its write. *)
Definition held (t : Hilicurl.Task) : list Hilicurl.Record_ :=
  match t with
  | Hilicurl.Storing _ old => old
  | _ => []
  end.

(** The records never outnumber the goroutines that have ended, neither in
    the shared slice nor in the copy a goroutine is about to write back. *)
Definition bounded (s : Hilicurl.State) : Prop :=
  (List.length (Hilicurl.records s) <= finished (Hilicurl.tasks s))%nat
  /\ Forall (fun t => (List.length (held t)
                      <= finished (Hilicurl.tasks s))%nat)
            (Hilicurl.tasks s).

(** *** Probes *)

Definition res200 : http.Response := http.mkResponse "200 OK" 200.
Definition res500 : http.Response :=
  http.mkResponse "500 Internal Server Error" 500.

Definition ms (n : Z) : time.Duration := n * time.Millisecond.

(** The arguments of a run: probes every 100 ms, each with 50 ms. *)
Definition args100 : Hilicurl.Args :=
  Hilicurl.mkArgs (context.WithCancel context.Background)
    "http://example.test/" (ms 100) (ms 50).

(** A connection 2 ms after the probe starts, an answer 500, and a body of
    two bytes read 7 ms after the connection. *)
Definition answered500 (t0 : time.Time) : Exchange :=
  mkExchange None t0 [t0 + ms 2] (http.DoOK res500)
    ([Byte.x78; Byte.x79], None) (t0 + ms 9).

(** The same with an answer 200. *)
Definition answered200 (t0 : time.Time) : Exchange :=
  mkExchange None t0 [t0 + ms 2] (http.DoOK res200)
    ([Byte.x78; Byte.x79], None) (t0 + ms 9).

(** The connection is refused. *)
Definition refused (t0 : time.Time) : Exchange :=
  mkExchange None t0 [] (http.DoErr None "connect: connection refused")
    ([], None) (t0 + ms 1).

(** The headers arrive, the body breaks off. *)
Definition truncated (t0 : time.Time) : Exchange :=
  mkExchange None t0 [t0 + ms 2] (http.DoOK res200)
    ([Byte.x78], Some "unexpected EOF"%string) (t0 + ms 9).

(** The headers arrive 40 ms after the start, and the deadline of the probe
    passes while the body is read. *)
Definition slowBody (t0 : time.Time) : Exchange :=
  mkExchange None t0 [t0 + ms 2] (http.DoOK res200)
    ([Byte.x78], Some "context deadline exceeded"%string) (t0 + ms 50).

(** *** Runs *)

(** Probes every 20 ms, each with one second. *)
Definition args20 : Hilicurl.Args :=
  Hilicurl.mkArgs (context.WithCancel context.Background)
    "http://example.test/" (ms 20) (ms 1000).

(** Two probes are dispatched, at 0 and at 20 ms; the first is answered
    slowly, and both requests are over at 29 ms. *)
Definition twoAnswered : list Hilicurl.Event :=
  [Hilicurl.Sched; Hilicurl.Go 0;
   Hilicurl.Tick (ms 20); Hilicurl.Sched; Hilicurl.Sched; Hilicurl.Go 1;
   Hilicurl.Tick (ms 9);
   Hilicurl.Respond 0
     (mkExchange None 0 [ms 2] (http.DoOK res200) ([Byte.x78], None) (ms 29));
   Hilicurl.Respond 1 (answered500 (ms 20))].

(** Both goroutines read the slice before either writes it back. *)
Definition interleaved : list Hilicurl.Event :=
  [Hilicurl.Go 0; Hilicurl.Go 1; Hilicurl.Go 0; Hilicurl.Go 1].

(** One goroutine appends after the other. *)
Definition oneByOne : list Hilicurl.Event :=
  [Hilicurl.Go 0; Hilicurl.Go 0; Hilicurl.Go 1; Hilicurl.Go 1].

(** Ctrl+C, and the loop comes back to its [select] at 40 ms. *)
Definition interrupted : list Hilicurl.Event :=
  [Hilicurl.Interrupt; Hilicurl.Tick (ms 11); Hilicurl.Sched; Hilicurl.Sched].

(** The loop is back at its [select] after Ctrl+C, 100 ms into the run,
    while the request of the first probe is still in flight. *)
Definition interruptedInFlight : Hilicurl.State :=
  Hilicurl.mkState (ms 100) true Hilicurl.Selecting []
    [Hilicurl.Requesting
       (context.WithTimeout (Hilicurl.ctx args100) 0 (ms 50))]
    [LogGET "http://example.test/"; LogCtrlC] None.

(** *** Measures of the further statements *)

(** The test of [printStatistics]: [rec.Response != nil]. *)
Definition responded (rec : Hilicurl.Record_) : bool :=
  match Hilicurl.Response rec with
  | Some _ => true
  | None => false
  end.

(** Whether a call returned a nil error. *)
Definition succeeded (r : http.DoResult) : bool :=
  match r with
  | http.DoOK _ => true
  | http.DoErr _ _ => false
  end.

(** The line a probe of [hilicurl.go] logs. *)
Definition probeLine (x : Exchange) (elapsed : time.Duration) : Line :=
  match doResult x with
  | http.DoErr _ err => LogERROR err
  | http.DoOK res =>
      match readAll x with
      | (_, Some err) => LogERROR err
      | (bytes, None) =>
          LogLengthTime (http.Status res) (Z.of_nat (List.length bytes))
            (time.Milliseconds elapsed)
      end
  end.

(** The line a probe of the iterations without a trace logs when
    [http.Get] succeeds with [res]. *)
Definition timeLine (x : Exchange) (res : http.Response) : Line :=
  LogTime (http.Status res)
    (time.Milliseconds (time.Sub (nowAfter x) (nowBefore x))).

(** The lines an in-line loop logs for probes that are all answered. *)
Fixpoint timeLines (url : string) (xs : list Exchange) : list Line :=
  match xs with
  | [] => []
  | x :: rest =>
      match client.Get x url with
      | http.DoOK res => timeLine x res :: timeLines url rest
      | http.DoErr _ _ => timeLines url rest
      end
  end.

(** The context [main] hands to [runRequests]. *)
Definition runContext : context.Context :=
  context.WithCancel context.Background.

(** A URL that [url.Parse] rejects: no request is built. *)
Definition unparsable (t0 : time.Time) : Exchange :=
  mkExchange (Some "parse: invalid URL escape"%string) t0 []
    (http.DoErr None "unreachable") ([], None) t0.

(** The state of the run [twoAnswered]: both requests are over and both
    goroutines are about to append. *)
Definition twoAppending : Hilicurl.State :=
  Eval cbv in
    match Hilicurl.run args20 (Hilicurl.enter args20 0 []) twoAnswered with
    | Some s => s
    | None => Hilicurl.enter args20 0 []
    end.

(** The loop sleeps after its first dispatch, at the instant 0. *)
Definition firstSleep : Hilicurl.State :=
  Hilicurl.dispatch args100 (Hilicurl.enter args100 0 []).

(** What [request] of the in-line iteration that keeps the responses
    returns and logs for an exchange. *)
Definition getResponse (url : string) (x : Exchange) : option http.Response :=
  match client.Get x url with
  | http.DoOK res => Some res
  | http.DoErr _ _ => None
  end.

Definition getLine (url : string) (x : Exchange) : Line :=
  match client.Get x url with
  | http.DoOK res => timeLine x res
  | http.DoErr _ err => LogERROR err
  end.

(** Whether [Do] and [ReadAll] both succeed. *)
Definition complete (x : Exchange) : bool :=
  succeeded (doResult x)
  && match snd (readAll x) with Some _ => false | None => true end.

(** A goroutine whose request is in flight at the instant [now] holds a
    context cancelled with the run, with a deadline at most one timeout
    away. *)
Definition inFlightBound (a : Hilicurl.Args) (now : time.Time)
    (t : Hilicurl.Task) : Prop :=
  match t with
  | Hilicurl.Requesting c =>
      context.cancelable c = context.cancelable (Hilicurl.ctx a)
      /\ exists d, context.deadline c = Some d
                   /\ d <= now + Hilicurl.timeout a
  | _ => True
  end.

(** The pace of the loop: with [n] probes dispatched since [t0], the loop
    at its [select] is at least [n] intervals after [t0], and a sleeping
    loop wakes [n] intervals after [t0] or later, and within one interval
    from now. *)
Definition paced (a : Hilicurl.Args) (t0 : time.Time) (s : Hilicurl.State)
    : Prop :=
  let n := Z.of_nat (List.length (Hilicurl.tasks s)) in
  t0 <= Hilicurl.now s
  /\ match Hilicurl.sched s with
     | Hilicurl.Selecting => n * Hilicurl.interval a <= Hilicurl.now s - t0
     | Hilicurl.Sleeping until =>
         n * Hilicurl.interval a <= until - t0
         /\ until <= Hilicurl.now s + Hilicurl.interval a
     end.

(** * Properties *)

(** ** Library facts *)

Lemma Sub_exact (t u : time.Time) :
  time.minDuration <= t - u <= time.maxDuration -> time.Sub t u = t - u.
Proof.
  intros [Hlo Hhi]. unfold time.Sub.
  destruct (Z.ltb_spec (t - u) time.minDuration) as [H|_]; [lia|].
  destruct (Z.ltb_spec time.maxDuration (t - u)) as [H|_]; [lia|].
  reflexivity.
Qed.

Lemma Sub_range (t u : time.Time) :
  time.minDuration <= time.Sub t u <= time.maxDuration.
Proof.
  unfold time.Sub.
  destruct (Z.ltb_spec (t - u) time.minDuration) as [H|H].
  - unfold time.minDuration, time.maxDuration. lia.
  - destruct (Z.ltb_spec time.maxDuration (t - u)) as [H'|H'].
    + unfold time.minDuration, time.maxDuration. lia.
    + lia.
Qed.

(** The context of a probe is done as soon as the run is cancelled or the
    timeout has passed, whichever comes first. *)
Lemma probe_context_done (t0 : time.Time) (timeout : time.Duration)
    (cancelled : bool) (now : time.Time) :
  context.Done
    (context.WithTimeout (context.WithCancel context.Background) t0 timeout)
    cancelled now
  = cancelled || (t0 + timeout <=? now).
Proof. reflexivity. Qed.

Lemma last_default (c : time.Time) (cs : list time.Time) (d d' : time.Time) :
  List.last (c :: cs) d = List.last (c :: cs) d'.
Proof.
  revert c. induction cs as [|c' cs IH]; intros c; [reflexivity|].
  change (List.last (c' :: cs) d = List.last (c' :: cs) d'). apply IH.
Qed.

(** The hook keeps the instant of the last connection. *)
Lemma gotConn_last (cs : list time.Time) (t3 : time.Time) :
  fold_left (fun _ now => now) cs t3 = List.last cs t3.
Proof.
  revert t3. induction cs as [|c cs IH]; intros t3; [reflexivity|].
  simpl fold_left. rewrite IH. destruct cs as [|c' cs]; [reflexivity|].
  change (List.last (c' :: cs) c = List.last (c' :: cs) t3).
  apply last_default.
Qed.

(** ** The statistics *)

Lemma countResponses_acc (records : list Hilicurl.Record_) (n : Z) :
  Hilicurl.countResponses records n = n + Hilicurl.countResponses records 0.
Proof.
  revert n. induction records as [|rec rest IH]; intros n; simpl.
  - lia.
  - destruct (Hilicurl.Response rec); rewrite IH.
    + rewrite (IH (0 + 1)). lia.
    + rewrite (IH 0). lia.
Qed.

Lemma countResponses_app (r1 r2 : list Hilicurl.Record_) (n : Z) :
  Hilicurl.countResponses (r1 ++ r2) n
  = Hilicurl.countResponses r2 (Hilicurl.countResponses r1 n).
Proof.
  revert n. induction r1 as [|rec rest IH]; intros n; simpl; [reflexivity|].
  apply IH.
Qed.

(** The responses received are never more than the requests transmitted. *)
Lemma responses_le_requests (records : list Hilicurl.Record_) :
  0 <= nRes (Hilicurl.printStatistics records)
       <= nReq (Hilicurl.printStatistics records).
Proof.
  unfold Hilicurl.printStatistics; simpl.
  induction records as [|rec rest IH]; simpl; [lia|].
  rewrite countResponses_acc.
  destruct (Hilicurl.Response rec); lia.
Qed.

(** Hence, with at least one record, the quotient the rate is computed
    from lies between 0 and 1, and the rate between 0 and 100. *)
Lemma exact_rate_in_range (records : list Hilicurl.Record_) :
  let st := Hilicurl.printStatistics records in
  0 <= 100 * (nReq st - nRes st) <= 100 * nReq st.
Proof.
  intros st. pose proof (responses_le_requests records) as H.
  fold st in H. lia.
Qed.

(** A record is counted as a response received exactly when its [Response]
    is not nil. *)
Lemma counted_iff_response (records : list Hilicurl.Record_)
    (rec : Hilicurl.Record_) :
  nRes (Hilicurl.printStatistics (records ++ [rec]))
  = nRes (Hilicurl.printStatistics records)
    + match Hilicurl.Response rec with Some _ => 1 | None => 0 end.
Proof.
  unfold Hilicurl.printStatistics; simpl.
  rewrite countResponses_app. simpl.
  destruct (Hilicurl.Response rec); lia.
Qed.

(** ** The probe *)

Ltac run_request :=
  unfold Hilicurl.request, Part001.request, Part000.request,
    Part003.request, Part002.request,
    client.NewRequestWithContext, client.Do, client.Get, deref,
    output, panic, block, mbind, M_bind, mret, M_ret; simpl.

(** In [hilicurl.go] a request that could be built always returns a record:
    no failure of [Do] or of [ReadAll] panics or blocks. *)
Lemma request_returns (x : Exchange) (tCtx : context.Context) (url : string)
    (l : list Line) :
  newRequestErr x = None ->
  exists rec o, Hilicurl.request x tCtx url l = (Returned rec, o).
Proof.
  intros Hreq. run_request. rewrite Hreq; simpl.
  destruct (doResult x) as [res|res err]; simpl; [|eauto].
  destruct (readAll x) as [bytes [err|]]; simpl; eauto.
Qed.

(** With a URL that does not parse the request is nil and [Do] panics. *)
Lemma request_nil_panics (x : Exchange) (tCtx : context.Context) (url : string)
    (l : list Line) (err : string) :
  newRequestErr x = Some err ->
  Hilicurl.request x tCtx url l = (Panicked nilDeref, l).
Proof. intros Hreq. run_request. rewrite Hreq. reflexivity. Qed.

(** A failed body read, in general: the record keeps the response, so the
    statistics count it as received. *)
Lemma body_failure_record (x : Exchange) (tCtx : context.Context)
    (url : string) (l : list Line) (res : http.Response)
    (bytes : list Byte.byte) (err : string) :
  newRequestErr x = None ->
  doResult x = http.DoOK res ->
  readAll x = (bytes, Some err) ->
  Hilicurl.request x tCtx url l
  = (Returned (Hilicurl.mkRecord (Some (http.mkRequest "GET" url tCtx))
                 (Some res) 0),
     l ++ [LogERROR err]).
Proof.
  intros Hreq Hdo Hread. run_request. rewrite Hreq, Hdo; simpl.
  rewrite Hread. reflexivity.
Qed.

(** The iteration before [hilicurl.go] returned nil there, which is not
    counted. *)
Lemma body_failure_nil_before (x : Exchange) (tCtx : context.Context)
    (url : string) (l : list Line) (res : http.Response)
    (bytes : list Byte.byte) (err : string) :
  newRequestErr x = None ->
  doResult x = http.DoOK res ->
  readAll x = (bytes, Some err) ->
  Part001.request x tCtx url l = (Returned None, l ++ [LogERROR err])
  /\ countNonNil [None] 0 = 0.
Proof.
  intros Hreq Hdo Hread. split; [|reflexivity].
  run_request. rewrite Hreq, Hdo; simpl. rewrite Hread. reflexivity.
Qed.

(** C1. [printStatistics] divides without a guard: when no outcome is
    recorded (the run is interrupted before a probe ends) the counts are 0
    and 0 and the rate is 0/0 in [float64], which is NaN and not 0. *)
Theorem printStatistics_empty_is_nan :
  nReq (Hilicurl.printStatistics []) = 0
  /\ nRes (Hilicurl.printStatistics []) = 0
  /\ PrimFloat.is_nan (timeoutRate (Hilicurl.printStatistics [])) = true
  /\ PrimFloat.eqb (timeoutRate (Hilicurl.printStatistics [])) (float64 0)
     = false.
Proof. vm_compute. repeat split; reflexivity. Qed.

(** With outcomes recorded, the quotient of [hilicurl.go] is taken in
    [float64]: one response out of three gives 66.67, not 0 or 100. *)
Lemma printStatistics_one_of_three :
  let st := Hilicurl.printStatistics
              [Hilicurl.mkRecord None (Some res200) 0;
               Hilicurl.mkRecord None None 0;
               Hilicurl.mkRecord None None 0] in
  nReq st = 3 /\ nRes st = 1
  /\ PrimFloat.ltb (float64 66) (timeoutRate st) = true
  /\ PrimFloat.ltb (timeoutRate st) (float64 67) = true.
Proof. vm_compute. repeat split; reflexivity. Qed.

(** The earlier iterations take the quotient on [int]s: it is truncated to
    0 here; and on an empty slice that division panics. *)
Lemma printStatisticsInt_truncates :
  printStatisticsInt [Some res200; None; None] []
  = (Returned tt, [PrintStatistics (mkStatistics 3 1 (float64 0))])
  /\ printStatisticsInt [] [] = (Panicked divideByZero, []).
Proof. vm_compute. split; reflexivity. Qed.

(** C2. A probe whose response arrives and whose body cannot be read: the
    error is logged and no elapsed time is recorded, but the record keeps
    the response, so [printStatistics] counts it among the responses
    received: 1 request, 1 response, 0 percent. *)
Theorem body_failure_is_counted :
  exists rec,
    Hilicurl.request (truncated 0) (Hilicurl.ctx args100)
      (Hilicurl.url args100) []
    = (Returned rec, [LogERROR "unexpected EOF"])
    /\ Hilicurl.Response rec = Some res200
    /\ Hilicurl.ElapsedTime rec = 0
    /\ nReq (Hilicurl.printStatistics [rec]) = 1
    /\ nRes (Hilicurl.printStatistics [rec]) = 1
    /\ PrimFloat.eqb (timeoutRate (Hilicurl.printStatistics [rec]))
         (float64 0) = true.
Proof. eexists. vm_compute. repeat split; reflexivity. Qed.

(** C5. A response with any status code and a readable body: [request]
    returns a record that holds that response, status code included, and the
    elapsed time; it logs the status line and no error; and
    [printStatistics] counts the record among the responses received. *)
Theorem response_any_status_is_success (x : Exchange)
    (tCtx : context.Context) (url : string) (l : list Line)
    (res : http.Response) (bytes : list Byte.byte) :
  newRequestErr x = None ->
  doResult x = http.DoOK res ->
  readAll x = (bytes, None) ->
  exists rec,
    Hilicurl.request x tCtx url l
    = (Returned rec,
       l ++ [LogLengthTime (http.Status res) (Z.of_nat (List.length bytes))
               (time.Milliseconds (Hilicurl.ElapsedTime rec))])
    /\ Hilicurl.Response rec = Some res
    /\ option_map http.StatusCode (Hilicurl.Response rec)
       = Some (http.StatusCode res)
    /\ forall records,
         nRes (Hilicurl.printStatistics (records ++ [rec]))
         = nRes (Hilicurl.printStatistics records) + 1.
Proof.
  intros Hreq Hdo Hread.
  exists (Hilicurl.mkRecord (Some (http.mkRequest "GET" url tCtx)) (Some res)
            (time.Sub (nowAfter x)
               (fold_left (fun _ now => now) (gotConn x) time.zero))).
  split.
  - run_request. rewrite Hreq, Hdo; simpl. rewrite Hread. reflexivity.
  - simpl. repeat split. intros records. apply counted_iff_response.
Qed.

Lemma response_any_status_is_success_500 :
  exists rec,
    Hilicurl.request (answered500 0) (Hilicurl.ctx args100) "u" []
    = (Returned rec,
       [LogLengthTime "500 Internal Server Error" 2
          (time.Milliseconds (Hilicurl.ElapsedTime rec))])
    /\ Hilicurl.Response rec = Some res500
    /\ option_map http.StatusCode (Hilicurl.Response rec) = Some 500
    /\ forall records,
         nRes (Hilicurl.printStatistics (records ++ [rec]))
         = nRes (Hilicurl.printStatistics records) + 1.
Proof.
  exact (response_any_status_is_success (answered500 0)
           (Hilicurl.ctx args100) "u" [] res500 [Byte.x78; Byte.x79]
           eq_refl eq_refl eq_refl).
Defined.

(** C7. The elapsed time of a record.  When [Do] and [ReadAll] both succeed
    it is [t7.Sub(t3)], from the instant of the last [GotConn] call to the
    instant after the body was read; the instant before the request plays
    no part.  On every other path it is left at zero. *)
Theorem elapsed_from_connection_to_body (x : Exchange)
    (tCtx : context.Context) (url : string) (l : list Line) :
  newRequestErr x = None ->
  exists rec o,
    Hilicurl.request x tCtx url l = (Returned rec, o)
    /\ Hilicurl.ElapsedTime rec
       = match http.do_err (doResult x), snd (readAll x) with
         | None, None =>
             time.Sub (nowAfter x) (List.last (gotConn x) time.zero)
         | _, _ => 0
         end.
Proof.
  intros Hreq. run_request. rewrite Hreq; simpl.
  destruct (doResult x) as [res|res err]; simpl; [|eauto].
  destruct (readAll x) as [bytes [err|]]; simpl; [eauto|].
  do 2 eexists. split; [reflexivity|]. simpl.
  rewrite gotConn_last. reflexivity.
Qed.

Lemma elapsed_from_connection_to_body_7ms :
  (exists rec o,
     Hilicurl.request (answered200 (ms 1000)) (Hilicurl.ctx args100) "u" []
     = (Returned rec, o)
     /\ Hilicurl.ElapsedTime rec = ms 7)
  /\ (exists rec o,
        Hilicurl.request (truncated (ms 1000)) (Hilicurl.ctx args100) "u" []
        = (Returned rec, o)
        /\ Hilicurl.ElapsedTime rec = 0)
  /\ (exists rec o,
        Hilicurl.request (refused (ms 1000)) (Hilicurl.ctx args100) "u" []
        = (Returned rec, o)
        /\ Hilicurl.ElapsedTime rec = 0).
Proof.
  split; [|split].
  - exact (elapsed_from_connection_to_body (answered200 (ms 1000))
             (Hilicurl.ctx args100) "u" [] eq_refl).
  - exact (elapsed_from_connection_to_body (truncated (ms 1000))
             (Hilicurl.ctx args100) "u" [] eq_refl).
  - exact (elapsed_from_connection_to_body (refused (ms 1000))
             (Hilicurl.ctx args100) "u" [] eq_refl).
Defined.

(** *** Failures of a probe in the earlier iterations *)

(** In the first iteration, a failed [http.Get] is logged and [request]
    goes on to read [res.Status] of the nil response. *)
Lemma first_request_panics (x : Exchange) (url : string) (l : list Line)
    (err : string) :
  client.Get x url = http.DoErr None err ->
  Part002.request x url l = (Panicked nilDeref, l ++ [LogERROR err]).
Proof. intros Hget. run_request. unfold client.Get in Hget. rewrite Hget. reflexivity. Qed.

(** In the iteration with the channel, [request] never returns: it blocks
    on its send, or panics on a nil request. *)
Lemma channel_request_never_returns (x : Exchange) (tCtx : context.Context)
    (url : string) (l : list Line) :
  forall r o, Part000.request x tCtx url l <> (Returned r, o).
Proof.
  intros r o. run_request.
  destruct (newRequestErr x); simpl; [discriminate|].
  destruct (doResult x) as [res|[res|] err]; simpl; discriminate.
Qed.

(** C4. In the first iteration a refused connection ends the run: the error
    is logged, [request] panics on the nil response, the deferred [recover]
    of [main] prints the error and the usage and exits with code 1.  The
    probe that would have been answered next is never made. *)
Theorem refused_probe_ends_first_iteration :
  Part002.main false ["http://example.test/"%string]
    [Probe (refused 0); Probe (answered200 (ms 2000)); Cancelled]
  = (Some 1,
     [LogGET "http://example.test/";
      LogERROR "connect: connection refused";
      PrintError nilDeref;
      PrintUsage]).
Proof. vm_compute. reflexivity. Qed.

(** From the iteration that keeps the responses on, the same failure is
    returned as nil and the loop goes on to the next probe. *)
Lemma refused_probe_continues_later :
  exists o,
    Part003.runRequests "http://example.test/"
      [Probe (refused 0); Probe (answered200 (ms 2000)); Cancelled] []
    = (Returned true, o)
    /\ o = [LogGET "http://example.test/";
            LogERROR "connect: connection refused";
            LogTime "200 OK" 9;
            PrintHeader "http://example.test/";
            PrintStatistics (mkStatistics 12 1 (float64 0))].
Proof. eexists. split; vm_compute; reflexivity. Qed.

(** ** The command line *)

(** C10, as stated, fails: with [-h] and no URL the usage is printed and the
    process exits with code 0. *)
Lemma help_without_url_exits_zero :
  ~ (forall f : Hilicurl.Flags,
       List.length (Hilicurl.flagArgs f) <> 1%nat ->
       exists o, Hilicurl.main f = Hilicurl.Exit 1 o).
Proof.
  intros H.
  destruct (H (Hilicurl.mkFlags true Hilicurl.defaultInterval
                 Hilicurl.defaultTimeout [])) as [o Ho].
  - simpl. lia.
  - vm_compute in Ho. discriminate.
Qed.

(** C10, amended.  When the help flag is not set and the number of
    positional arguments is not one (none, or more than one), [main] logs
    and raises "url argument is required", prints the error and the usage,
    and exits with code 1; [runRequests] is not entered. *)
Theorem wrong_argument_count_is_fatal (f : Hilicurl.Flags) :
  Hilicurl.flagHelp f = false ->
  List.length (Hilicurl.flagArgs f) <> 1%nat ->
  Hilicurl.main f
  = Hilicurl.Exit 1 [LogPanic "url argument is required";
                     PrintError "url argument is required";
                     PrintUsage].
Proof.
  intros Hhelp Hn. unfold Hilicurl.main, Hilicurl.main_body. rewrite Hhelp.
  destruct (Z.eqb_spec (Z.of_nat (List.length (Hilicurl.flagArgs f))) 1)
    as [E|E]; [lia|]. reflexivity.
Qed.

Lemma wrong_argument_count_is_fatal_two_urls :
  Hilicurl.main (Hilicurl.mkFlags false Hilicurl.defaultInterval
                   Hilicurl.defaultTimeout
                   ["http://a.test/"%string; "http://b.test/"%string])
  = Hilicurl.Exit 1 [LogPanic "url argument is required";
                     PrintError "url argument is required";
                     PrintUsage]
  /\ Hilicurl.main (Hilicurl.mkFlags false Hilicurl.defaultInterval
                      Hilicurl.defaultTimeout [])
     = Hilicurl.Exit 1 [LogPanic "url argument is required";
                        PrintError "url argument is required";
                        PrintUsage].
Proof.
  split; apply wrong_argument_count_is_fatal;
    [reflexivity | simpl; lia | reflexivity | simpl; lia].
Defined.

(** With exactly one positional argument and no help flag, [main] enters
    [runRequests] with that URL and the two durations. *)
Lemma one_url_runs (f : Hilicurl.Flags) (u : string) :
  Hilicurl.flagHelp f = false ->
  Hilicurl.flagArgs f = [u] ->
  Hilicurl.main f
  = Hilicurl.Run
      (Hilicurl.mkArgs (context.WithCancel context.Background) u
         (Hilicurl.flagInterval f) (Hilicurl.flagTimeout f)) [].
Proof.
  intros Hhelp Hargs. unfold Hilicurl.main, Hilicurl.main_body.
  rewrite Hhelp, Hargs. reflexivity.
Qed.

(** ** The loop of [runRequests] *)

Section Loop.

Import Hilicurl.

Variable a : Args.

Ltac step_cases H :=
  unfold step in H;
  match type of H with
  | context [exited ?s] => destruct (exited s) eqn:Hex; [discriminate|]
  end.

Ltac got H := injection H as <-.

(** What one event can do, read off [step]. *)
Lemma step_inv (s s' : State) (e : Event) :
  step a s e = Some s' ->
  exited s = None
  /\ now s <= now s'
  /\ (sched s' = sched s
      \/ (e = Sched /\ exists until, sched s = Sleeping until
                                   /\ until <= now s /\ sched s' = Selecting)
      \/ (e = Sched /\ sched s = Selecting
          /\ context.Done (ctx a) (cancelled s) (now s) = false
          /\ s' = dispatch a s))
  /\ (List.length (tasks s') = List.length (tasks s)
      \/ (e = Sched /\ sched s = Selecting
          /\ context.Done (ctx a) (cancelled s) (now s) = false
          /\ s' = dispatch a s)).
Proof.
  intros H. step_cases H. split; [reflexivity|].
  destruct e as [|d| |i|i x].
  - destruct (cancelled s); got H; simpl; repeat split; auto; lia.
  - destruct (Z.leb_spec 0 d); [|discriminate]. got H; simpl.
    repeat split; auto; lia.
  - unfold stepSched in H. destruct (sched s) as [|until] eqn:Hs.
    + destruct (context.Done (ctx a) (cancelled s) (now s)) eqn:Hd; got H.
      * simpl. repeat split; auto; lia.
      * simpl. split; [lia|]. split; right; [right|]; auto.
    + destruct (Z.leb_spec until (now s)); [|discriminate]. got H; simpl.
      split; [lia|]. split; [|auto]. right; left. eauto.
  - unfold stepGo in H.
    destruct (tasks s !! i) as [[| | res | res old |]|]; try discriminate;
      got H; simpl; rewrite ?length_insert; repeat split; auto; lia.
  - unfold stepRespond in H.
    destruct (tasks s !! i) as [[| tCtx | | |]|]; try discriminate.
    destruct (request x tCtx (url a) (out s)) as [[rec|r|] o];
      try discriminate; got H; simpl; rewrite ?length_insert;
      repeat split; auto; lia.
Qed.

(** While the loop sleeps nothing is dispatched, and it leaves the sleep
    only once the instant it waits for is reached. *)
Lemma sleeping_run (until : time.Time) (n : nat) (evs : list Event) :
  forall s s',
    (sched s = Sleeping until /\ List.length (tasks s) = n)
    \/ until <= now s ->
    run a s evs = Some s' ->
    (sched s' = Sleeping until /\ List.length (tasks s') = n)
    \/ until <= now s'.
Proof.
  induction evs as [|e evs IH]; intros s s' Hinv Hrun; simpl in Hrun.
  - injection Hrun as <-. exact Hinv.
  - destruct (step a s e) as [s1|] eqn:Hstep; [|discriminate].
    apply (IH s1 s'); [|exact Hrun].
    destruct (step_inv _ _ _ Hstep) as (_ & Hnow & Hsched & Htasks).
    destruct Hinv as [[Hs Hn]|Hu]; [|right; lia].
    destruct Hsched as [Hsame|[(_ & u & Hu & Hle & _)|(_ & Hsel & _)]].
    + destruct Htasks as [Hlen|(_ & Hsel & _)]; [|congruence].
      left. split; congruence.
    + right. assert (u = until) by congruence. lia.
    + congruence.
Qed.

(** Once [runRequests] has returned, nothing happens any more. *)
Lemma exited_is_final (s : State) (code : Z) (e : Event) :
  exited s = Some code -> step a s e = None.
Proof. intros H. unfold step. rewrite H. reflexivity. Qed.

(** Events other than a step of the loop leave the loop where it is. *)
Lemma run_keeps_sched (evs : list Event) :
  forall s s',
    Forall (fun e => e <> Sched) evs ->
    run a s evs = Some s' ->
    sched s' = sched s.
Proof.
  induction evs as [|e evs IH]; intros s s' Hns Hrun; simpl in Hrun.
  - injection Hrun as <-. reflexivity.
  - destruct (step a s e) as [s1|] eqn:Hstep; [|discriminate].
    inversion Hns as [|e0 evs0 He Hrest]; subst.
    rewrite (IH s1 s' Hrest Hrun).
    destruct (step_inv _ _ _ Hstep)
      as (_ & _ & [Hsame|[(Hs & _)|(Hs & _)]] & _); congruence.
Qed.

(** C8. The loop of [runRequests], whatever the goroutines in flight are
    doing.  At its [select], if the context is not done, the loop starts
    one more goroutine and only that, leaves the records alone and sleeps:
    no further goroutine is started before the instant [now + interval].
    Whatever the goroutines, the clock and the interrupt do in between, the
    loop stays in its sleep, cannot step before that instant, and from that
    instant on steps back to its [select] without waiting for any
    goroutine; there it tests the context again, and reports if the run was
    cancelled in between and dispatches otherwise.  At its [select], if the
    context is done, the loop prints the statistics of the records present
    at that instant and returns without a step of any goroutine, after
    which nothing is dispatched. *)
Theorem scheduler_turn (s : State) :
  exited s = None ->
  sched s = Selecting ->
  if context.Done (ctx a) (cancelled s) (now s)
  then
    step a s Sched = Some (report a s)
    /\ out (report a s)
       = out s ++ [PrintHeader (url a);
                   PrintStatistics (printStatistics (records s))]
    /\ tasks (report a s) = tasks s
    /\ forall e, step a (report a s) e = None
  else
    step a s Sched = Some (dispatch a s)
    /\ tasks (dispatch a s) = tasks s ++ [Spawned]
    /\ records (dispatch a s) = records s
    /\ (forall evs s',
          run a (dispatch a s) evs = Some s' ->
          (sched s' = Sleeping (now s + interval a)
           /\ List.length (tasks s') = S (List.length (tasks s)))
          \/ now s + interval a <= now s')
    /\ forall evs s1,
         Forall (fun e => e <> Sched) evs ->
         run a (dispatch a s) evs = Some s1 ->
         exited s1 = None ->
         sched s1 = Sleeping (now s + interval a)
         /\ step a s1 Sched
            = (if now s + interval a <=? now s1
               then Some (setSched Selecting s1)
               else None)
         /\ (tasks (setSched Selecting s1), records (setSched Selecting s1),
             cancelled (setSched Selecting s1), now (setSched Selecting s1))
            = (tasks s1, records s1, cancelled s1, now s1)
         /\ step a (setSched Selecting s1) Sched
            = Some (if context.Done (ctx a) (cancelled s1) (now s1)
                    then report a (setSched Selecting s1)
                    else dispatch a (setSched Selecting s1)).
Proof.
  intros Hex Hsel.
  destruct (context.Done (ctx a) (cancelled s) (now s)) eqn:Hd.
  - split; [|split; [reflexivity|split; [reflexivity|]]].
    + unfold step, stepSched. rewrite Hex, Hsel, Hd. reflexivity.
    + intros e. apply (exited_is_final _ 0). reflexivity.
  - split; [|split; [reflexivity|split; [reflexivity|split]]].
    + unfold step, stepSched. rewrite Hex, Hsel, Hd. reflexivity.
    + intros evs s' Hrun.
      apply (sleeping_run _ _ evs (dispatch a s) s'); [|exact Hrun].
      left. split; [reflexivity|]. simpl. rewrite length_app. simpl. lia.
    + intros evs s1 Hns Hrun Hex1.
      pose proof (run_keeps_sched evs _ _ Hns Hrun) as Hs1.
      simpl in Hs1. unfold time.Add in Hs1.
      split; [exact Hs1|]. split; [|split; [reflexivity|]].
      * unfold step, stepSched. rewrite Hex1, Hs1. reflexivity.
      * unfold step, stepSched. simpl. rewrite Hex1.
        destruct (context.Done (ctx a) (cancelled s1) (now s1)); reflexivity.
Qed.

End Loop.

(** ** The shared slice *)

Lemma finished_spawn (ts : list Hilicurl.Task) :
  finished (ts ++ [Hilicurl.Spawned]) = finished ts.
Proof.
  induction ts as [|t ts IH]; [reflexivity|].
  destruct t; simpl; rewrite IH; reflexivity.
Qed.

Lemma finished_insert (ts : list Hilicurl.Task) (i : nat)
    (t t' : Hilicurl.Task) :
  ts !! i = Some t ->
  t <> Hilicurl.Exited ->
  finished (<[i:=t']> ts)
  = (finished ts + match t' with Hilicurl.Exited => 1 | _ => 0 end)%nat.
Proof.
  revert i. induction ts as [|t0 ts IH]; intros i Hi Hne; [discriminate|].
  destruct i as [|i]; simpl in *.
  - injection Hi as ->. destruct t; try congruence; destruct t'; simpl; lia.
  - rewrite (IH i Hi Hne). destruct t0; simpl; lia.
Qed.

Section Slice.

Import Hilicurl.

Variable a : Args.

Lemma bounded_enter (t0 : time.Time) (o : list Line) :
  bounded (enter a t0 o).
Proof. split; simpl; [lia | constructor]. Qed.

Lemma bounded_insert (s : State) (i : nat) (t t' : Task) (rs : list Record_) :
  bounded s ->
  tasks s !! i = Some t ->
  t <> Exited ->
  (List.length rs
   <= finished (tasks s) + match t' with Exited => 1 | _ => 0 end)%nat ->
  (List.length (held t')
   <= finished (tasks s) + match t' with Exited => 1 | _ => 0 end)%nat ->
  bounded (mkState (now s) (cancelled s) (sched s) rs (<[i:=t']> (tasks s))
             (out s) (exited s)).
Proof.
  intros [Hr Hall] Hi Hne Hrs Hheld. unfold bounded; simpl.
  rewrite (finished_insert _ _ _ _ Hi Hne). split; [exact Hrs|].
  apply Forall_insert; [|exact Hheld].
  eapply Forall_impl; [exact Hall|]. simpl. intros t1 H1. lia.
Qed.

Lemma bounded_step (s s' : State) (e : Event) :
  bounded s -> step a s e = Some s' -> bounded s'.
Proof.
  intros Hb H. unfold step in H.
  destruct (exited s) eqn:Hex; [discriminate|].
  destruct e as [|d| |i|i x].
  - destruct (cancelled s); injection H as <-; exact Hb.
  - destruct (0 <=? d); [|discriminate]. injection H as <-. exact Hb.
  - unfold stepSched in H. destruct (sched s) as [|until].
    + destruct (context.Done (ctx a) (cancelled s) (now s));
        injection H as <-; [exact Hb|].
      destruct Hb as [Hr Hall]. unfold bounded; simpl.
      rewrite finished_spawn. split; [exact Hr|].
      apply Forall_app. split; [exact Hall|].
      constructor; [simpl; lia | constructor].
    + destruct (until <=? now s); [|discriminate]. injection H as <-.
      exact Hb.
  - unfold stepGo in H.
    destruct (tasks s !! i) as [t|] eqn:Hi; [|discriminate].
    pose proof Hb as [Hr Hall].
    destruct t as [| tCtx | res | res old |]; try discriminate;
      injection H as <-.
    + apply (bounded_insert s i Spawned); auto; simpl; try lia; congruence.
    + apply (bounded_insert s i (Appending res)); auto; simpl; try lia;
        congruence.
    + assert (Hold : (List.length old <= finished (tasks s))%nat).
      { rewrite Forall_lookup in Hall. apply (Hall i _ Hi). }
      apply (bounded_insert s i (Storing res old)); auto; simpl;
        rewrite ?length_app; simpl; try lia; congruence.
  - unfold stepRespond in H.
    destruct (tasks s !! i) as [t|] eqn:Hi; [|discriminate].
    destruct t as [| tCtx | | |]; try discriminate.
    destruct (request x tCtx (url a) (out s)) as [[rec|r|] o];
      try discriminate; injection H as <-; [|exact Hb].
    destruct Hb as [Hr Hall].
    pose proof (bounded_insert s i (Requesting tCtx) (Appending rec)
                  (records s) (conj Hr Hall) Hi) as Hins.
    unfold bounded in *; simpl in *. apply Hins; [congruence|lia|lia].
Qed.

(** In every state of a run, the requests the statistics would report are
    no more than the probes that have ended, which are no more than the
    probes dispatched. *)
Lemma requests_le_finished (t0 : time.Time) (o : list Line)
    (evs : list Event) (s : State) :
  run a (enter a t0 o) evs = Some s ->
  (List.length (records s) <= finished (tasks s) <= List.length (tasks s))%nat.
Proof.
  intros Hrun.
  assert (Hb : bounded s).
  { revert Hrun. generalize (bounded_enter t0 o).
    generalize (enter a t0 o) as s0. revert s.
    induction evs as [|e evs IH]; intros s s0 Hb Hrun; simpl in Hrun.
    - injection Hrun as <-. exact Hb.
    - destruct (step a s0 e) as [s1|] eqn:Hstep; [|discriminate].
      apply (IH s s1); [|exact Hrun]. exact (bounded_step _ _ _ Hb Hstep). }
  split; [apply Hb|].
  clear. induction (tasks s) as [|t ts IH]; [simpl; lia|].
  destruct t; simpl; lia.
Qed.

(** An append that no other goroutine interleaves with adds its record. *)
Lemma append_alone (s : State) (i : nat) (res : Record_) :
  exited s = None ->
  tasks s !! i = Some (Appending res) ->
  exists s',
    run a s [Go i; Go i] = Some s'
    /\ records s' = records s ++ [res]
    /\ tasks s' = <[i:=Exited]> (tasks s).
Proof.
  intros Hex Hi. eexists. simpl. unfold step at 1. rewrite Hex. simpl.
  unfold stepGo at 1. rewrite Hi. unfold step. simpl. rewrite Hex.
  unfold stepGo. simpl.
  rewrite list_lookup_insert_eq by (eapply lookup_lt_Some; exact Hi).
  split; [reflexivity|]. simpl. split; [reflexivity|].
  apply list_insert_insert_eq.
Qed.

(** Two appends that interleave leave one record more, not two: the write
    of the second goroutine puts back the slice it read. *)
Lemma append_interleaved (s : State) (i j : nat) (ri rj : Record_) :
  exited s = None ->
  i <> j ->
  tasks s !! i = Some (Appending ri) ->
  tasks s !! j = Some (Appending rj) ->
  exists s',
    run a s [Go i; Go j; Go i; Go j] = Some s'
    /\ records s' = records s ++ [rj]
    /\ tasks s' !! i = Some Exited
    /\ tasks s' !! j = Some Exited.
Proof.
  intros Hex Hij Hi Hj.
  assert (Hli : (i < List.length (tasks s))%nat)
    by (eapply lookup_lt_Some; exact Hi).
  assert (Hlj : (j < List.length (tasks s))%nat)
    by (eapply lookup_lt_Some; exact Hj).
  eexists. simpl.
  unfold step at 1. rewrite Hex. simpl. unfold stepGo at 1. rewrite Hi.
  unfold step at 1. simpl. rewrite Hex. unfold stepGo at 1. simpl.
  rewrite list_lookup_insert_ne by exact Hij. rewrite Hj.
  unfold step at 1. simpl. rewrite Hex. unfold stepGo at 1. simpl.
  rewrite list_lookup_insert_ne by congruence.
  rewrite list_lookup_insert_eq by exact Hli.
  unfold step at 1. simpl. rewrite Hex. unfold stepGo at 1. simpl.
  rewrite list_lookup_insert_ne by exact Hij.
  rewrite list_lookup_insert_eq by (rewrite length_insert; exact Hlj).
  split; [reflexivity|]. simpl. split; [reflexivity|]. split.
  - rewrite list_lookup_insert_ne by congruence.
    apply list_lookup_insert_eq. rewrite !length_insert. exact Hli.
  - apply list_lookup_insert_eq. rewrite !length_insert. exact Hlj.
Qed.

End Slice.

(** C9. Two goroutines append at the same time.  When both read [records]
    before either writes it back, both run to their end and the slice holds
    one record: the append of the first is lost.  (One after the other, the
    same two appends leave two records.) *)
Theorem concurrent_append_is_lost :
  exists s recA recB,
    Hilicurl.run args20 (Hilicurl.enter args20 0 []) twoAnswered = Some s
    /\ Hilicurl.tasks s = [Hilicurl.Appending recA; Hilicurl.Appending recB]
    /\ Hilicurl.records s = []
    /\ (exists s',
          Hilicurl.run args20 s interleaved = Some s'
          /\ Hilicurl.tasks s' = [Hilicurl.Exited; Hilicurl.Exited]
          /\ Hilicurl.records s' = [recB])
    /\ (exists s',
          Hilicurl.run args20 s oneByOne = Some s'
          /\ Hilicurl.tasks s' = [Hilicurl.Exited; Hilicurl.Exited]
          /\ Hilicurl.records s' = [recA; recB]).
Proof.
  do 3 eexists. split; [vm_compute; reflexivity|].
  split; [reflexivity|]. split; [reflexivity|].
  split; eexists; (split; [vm_compute; reflexivity|]); split; reflexivity.
Qed.

(** C3. A run of [hilicurl.go] in which two probes are dispatched and both
    goroutines end before the report, and the report counts one request:
    the slice holds one entry for two completed probes. *)
Theorem report_counts_one_of_two :
  exists s st,
    Hilicurl.run args20 (Hilicurl.enter args20 0 [])
      (twoAnswered ++ interleaved ++ interrupted) = Some s
    /\ Hilicurl.exited s = Some 0
    /\ Hilicurl.tasks s = [Hilicurl.Exited; Hilicurl.Exited]
    /\ List.last (Hilicurl.out s) LogShutdown = PrintStatistics st
    /\ nReq st = 1.
Proof.
  do 2 eexists. split; [vm_compute; reflexivity|].
  repeat split; reflexivity.
Qed.

(** In the iterations that keep [[]*http.Response] the slice is made with
    ten nil entries: a run interrupted before any probe reports ten
    requests transmitted. *)
Lemma first_slices_start_with_ten :
  Part003.runRequests "http://example.test/" [Cancelled] []
  = (Returned true,
     [LogGET "http://example.test/";
      PrintHeader "http://example.test/";
      PrintStatistics (mkStatistics 10 0 (float64 100))]).
Proof. vm_compute. reflexivity. Qed.

(** C6. A probe with a timeout of 50 ms whose headers arrive in time and
    whose body does not: when [ReadAll] fails the context of the probe is
    done, its deadline being the start plus the timeout; the record keeps
    the response, and the report counts it as received, with 0 percent of
    timeouts. *)
Theorem late_body_is_counted :
  exists s0 tCtx s,
    Hilicurl.run args100 (Hilicurl.enter args100 0 [])
      [Hilicurl.Sched; Hilicurl.Go 0; Hilicurl.Tick (ms 50)] = Some s0
    /\ Hilicurl.tasks s0 = [Hilicurl.Requesting tCtx]
    /\ context.deadline tCtx = Some (0 + Hilicurl.timeout args100)
    /\ context.Done tCtx (Hilicurl.cancelled s0) (Hilicurl.now s0) = true
    /\ Hilicurl.run args100 s0
         [Hilicurl.Respond 0 (slowBody 0); Hilicurl.Go 0; Hilicurl.Go 0;
          Hilicurl.Interrupt; Hilicurl.Tick (ms 50);
          Hilicurl.Sched; Hilicurl.Sched] = Some s
    /\ Hilicurl.out s
       = [LogGET "http://example.test/";
          LogERROR "context deadline exceeded";
          LogCtrlC;
          PrintHeader "http://example.test/";
          PrintStatistics (mkStatistics 1 1 (float64 0))].
Proof.
  do 3 eexists. split; [vm_compute; reflexivity|].
  split; [reflexivity|]. split; [reflexivity|]. split; [reflexivity|].
  split; vm_compute; reflexivity.
Qed.

(** A probe that gets no response before its deadline leaves a nil
    [Response] and is not counted as received. *)
Lemma no_response_is_timeout (x : Exchange) (tCtx : context.Context)
    (url : string) (l : list Line) (err : string) :
  newRequestErr x = None ->
  doResult x = http.DoErr None err ->
  exists rec,
    Hilicurl.request x tCtx url l = (Returned rec, l ++ [LogERROR err])
    /\ Hilicurl.Response rec = None
    /\ Hilicurl.ElapsedTime rec = 0
    /\ forall records,
         nRes (Hilicurl.printStatistics (records ++ [rec]))
         = nRes (Hilicurl.printStatistics records).
Proof.
  intros Hreq Hdo.
  exists (Hilicurl.mkRecord (Some (http.mkRequest "GET" url tCtx)) None 0).
  split.
  - run_request. rewrite Hreq, Hdo. reflexivity.
  - repeat split. intros records. rewrite counted_iff_response. simpl. lia.
Qed.

Lemma interruptedInFlight_reached :
  Hilicurl.run args100 (Hilicurl.enter args100 0 [])
    [Hilicurl.Sched; Hilicurl.Go 0; Hilicurl.Interrupt;
     Hilicurl.Tick (ms 100); Hilicurl.Sched]
  = Some interruptedInFlight.
Proof. vm_compute. reflexivity. Qed.

(** The first turn of a run dispatches a probe and the loop sleeps; 100 ms
    later, with the request of that probe still in flight, the loop is back
    at its [select]; and in the run where Ctrl+C came during the sleep, the
    turn after it reports, with the request in flight. *)
Lemma scheduler_turn_first_and_last :
  (Hilicurl.step args100 (Hilicurl.enter args100 0 []) Hilicurl.Sched
   = Some (Hilicurl.dispatch args100 (Hilicurl.enter args100 0 []))
   /\ Hilicurl.tasks
        (Hilicurl.dispatch args100 (Hilicurl.enter args100 0 []))
      = [] ++ [Hilicurl.Spawned])
  /\ (exists s1,
        Hilicurl.run args100
          (Hilicurl.dispatch args100 (Hilicurl.enter args100 0 []))
          [Hilicurl.Go 0; Hilicurl.Tick (ms 100)] = Some s1
        /\ Hilicurl.tasks s1
           = [Hilicurl.Requesting
                (context.WithTimeout (Hilicurl.ctx args100) 0 (ms 50))]
        /\ Hilicurl.sched s1 = Hilicurl.Sleeping (0 + ms 100)
        /\ Hilicurl.step args100 s1 Hilicurl.Sched
           = Some (Hilicurl.setSched Hilicurl.Selecting s1)
        /\ Hilicurl.step args100 (Hilicurl.setSched Hilicurl.Selecting s1)
             Hilicurl.Sched
           = Some (Hilicurl.dispatch args100
                     (Hilicurl.setSched Hilicurl.Selecting s1)))
  /\ (exists s,
        Hilicurl.run args100 (Hilicurl.enter args100 0 [])
          [Hilicurl.Sched; Hilicurl.Go 0; Hilicurl.Interrupt;
           Hilicurl.Tick (ms 100); Hilicurl.Sched] = Some s
        /\ Hilicurl.tasks s
           = [Hilicurl.Requesting
                (context.WithTimeout (Hilicurl.ctx args100) 0 (ms 50))]
        /\ Hilicurl.step args100 s Hilicurl.Sched
           = Some (Hilicurl.report args100 s)
        /\ Hilicurl.out (Hilicurl.report args100 s)
           = Hilicurl.out s
             ++ [PrintHeader "http://example.test/";
                 PrintStatistics (Hilicurl.printStatistics [])]
        /\ Hilicurl.tasks (Hilicurl.report args100 s) = Hilicurl.tasks s
        /\ forall e,
             Hilicurl.step args100 (Hilicurl.report args100 s) e = None).
Proof.
  pose proof (scheduler_turn args100 (Hilicurl.enter args100 0 [])
                eq_refl eq_refl) as (Hstep & Htasks & _ & _ & Hcycle).
  split; [exact (conj Hstep Htasks)|]. split.
  - eexists. split; [vm_compute; reflexivity|]. split; [reflexivity|].
    assert (Hns : Forall (fun e => e <> Hilicurl.Sched)
                    [Hilicurl.Go 0; Hilicurl.Tick (ms 100)])
      by (repeat constructor; discriminate).
    match goal with
    | |- Hilicurl.sched ?st = _ /\ _ =>
        assert (Hrun : Hilicurl.run args100
                         (Hilicurl.dispatch args100
                            (Hilicurl.enter args100 0 []))
                         [Hilicurl.Go 0; Hilicurl.Tick (ms 100)] = Some st)
          by (vm_compute; reflexivity);
        destruct (Hcycle _ st Hns Hrun eq_refl)
          as (Hs & Hwake & _ & Hagain)
    end.
    split; [exact Hs|]. split; [exact Hwake | exact Hagain].
  - eexists. split; [vm_compute; reflexivity|]. split; [reflexivity|].
    match goal with
    | |- Hilicurl.step args100 ?st _ = _ /\ _ =>
        exact (scheduler_turn args100 st eq_refl eq_refl)
    end.
Defined.

(** * Further properties of the code *)

(** ** [printStatistics] of [hilicurl.go] *)

Lemma countResponses_filter (records : list Hilicurl.Record_) (n : Z) :
  Hilicurl.countResponses records n
  = n + Z.of_nat (List.length (List.filter responded records)).
Proof.
  revert n. induction records as [|rec rest IH]; intros n; simpl; [lia|].
  rewrite IH. unfold responded at 2.
  destruct (Hilicurl.Response rec); simpl; lia.
Qed.

(** X1. The counts of the report: the requests are the number of records,
    the responses are the number of records whose [Response] is not nil,
    and the responses never exceed the requests. *)
Theorem statistics_counts (records : list Hilicurl.Record_) :
  nReq (Hilicurl.printStatistics records) = Z.of_nat (List.length records)
  /\ nRes (Hilicurl.printStatistics records)
     = Z.of_nat (List.length (List.filter responded records))
  /\ 0 <= nRes (Hilicurl.printStatistics records)
       <= nReq (Hilicurl.printStatistics records).
Proof.
  unfold Hilicurl.printStatistics; simpl.
  rewrite countResponses_filter.
  pose proof (List.filter_length_le responded records).
  repeat split; lia.
Qed.

(** X2. The report does not depend on the order of the records: the
    goroutines may append in any order. *)
Theorem statistics_order_free (r1 r2 : list Hilicurl.Record_) :
  Permutation r1 r2 ->
  Hilicurl.printStatistics r1 = Hilicurl.printStatistics r2.
Proof.
  intros Hp.
  assert (Hlen : List.length r1 = List.length r2)
    by (apply Permutation_length; exact Hp).
  assert (Hres : Hilicurl.countResponses r1 0 = Hilicurl.countResponses r2 0).
  { rewrite !countResponses_filter. f_equal. f_equal.
    clear Hlen.
    induction Hp as [|x l l' _ IH|x y l|l l' l'' _ IH1 _ IH2]; simpl.
    - reflexivity.
    - destruct (responded x); simpl; rewrite IH; reflexivity.
    - destruct (responded x), (responded y); reflexivity.
    - rewrite IH1, IH2. reflexivity. }
  unfold Hilicurl.printStatistics. rewrite Hlen, Hres. reflexivity.
Qed.

Lemma statistics_order_free_swap :
  Hilicurl.printStatistics
    [Hilicurl.mkRecord None (Some res200) (ms 7); Hilicurl.mkRecord None None 0]
  = Hilicurl.printStatistics
      [Hilicurl.mkRecord None None 0; Hilicurl.mkRecord None (Some res200) (ms 7)].
Proof. apply statistics_order_free. apply perm_swap. Defined.

(** X3. The counts of two batches of records add up. *)
Theorem statistics_counts_add (r1 r2 : list Hilicurl.Record_) :
  nReq (Hilicurl.printStatistics (r1 ++ r2))
  = nReq (Hilicurl.printStatistics r1) + nReq (Hilicurl.printStatistics r2)
  /\ nRes (Hilicurl.printStatistics (r1 ++ r2))
     = nRes (Hilicurl.printStatistics r1)
       + nRes (Hilicurl.printStatistics r2).
Proof.
  unfold Hilicurl.printStatistics; simpl. split.
  - rewrite length_app. lia.
  - rewrite countResponses_app, countResponses_acc. lia.
Qed.

(** ** [request] of [hilicurl.go] *)

(** X4. A probe whose request could be built returns a record and adds one
    line to the log, after the lines already there: an error line when [Do]
    or [ReadAll] failed, the status line otherwise.  The record holds the
    request that was sent and whatever response [Do] returned, error or
    not. *)
Theorem probe_record_and_line (x : Exchange) (tCtx : context.Context)
    (url : string) (l : list Line) :
  newRequestErr x = None ->
  exists rec,
    Hilicurl.request x tCtx url l
    = (Returned rec, l ++ [probeLine x (Hilicurl.ElapsedTime rec)])
    /\ Hilicurl.Request rec = Some (http.mkRequest "GET" url tCtx)
    /\ Hilicurl.Response rec = http.do_res (doResult x).
Proof.
  intros Hreq. unfold probeLine. run_request. rewrite Hreq; simpl.
  destruct (doResult x) as [res|res err]; simpl.
  - destruct (readAll x) as [bytes [err|]]; simpl;
      eexists (Hilicurl.mkRecord _ _ _); (split; [reflexivity|]);
      split; reflexivity.
  - eexists (Hilicurl.mkRecord _ _ _). split; [reflexivity|].
    split; reflexivity.
Qed.

Lemma probe_record_and_line_refused :
  exists rec,
    Hilicurl.request (refused 0) runContext "http://example.test/" [LogCtrlC]
    = (Returned rec,
       [LogCtrlC] ++ [probeLine (refused 0) (Hilicurl.ElapsedTime rec)])
    /\ Hilicurl.Request rec
       = Some (http.mkRequest "GET" "http://example.test/" runContext)
    /\ Hilicurl.Response rec = http.do_res (doResult (refused 0)).
Proof.
  exact (probe_record_and_line (refused 0) runContext "http://example.test/"
           [LogCtrlC] eq_refl).
Defined.

(** X5. A probe for which [Do] returns an error and no response (refused
    connection, failed lookup, deadline before the headers): the record has
    a nil [Response] and no elapsed time, and the report does not count it
    as received. *)
Theorem failed_probe_not_counted (x : Exchange) (tCtx : context.Context)
    (url : string) (l : list Line) (err : string)
    (records : list Hilicurl.Record_) :
  newRequestErr x = None ->
  doResult x = http.DoErr None err ->
  exists rec,
    Hilicurl.request x tCtx url l = (Returned rec, l ++ [LogERROR err])
    /\ responded rec = false
    /\ Hilicurl.ElapsedTime rec = 0
    /\ nReq (Hilicurl.printStatistics (records ++ [rec]))
       = nReq (Hilicurl.printStatistics records) + 1
    /\ nRes (Hilicurl.printStatistics (records ++ [rec]))
       = nRes (Hilicurl.printStatistics records).
Proof.
  intros Hreq Hdo.
  exists (Hilicurl.mkRecord (Some (http.mkRequest "GET" url tCtx)) None 0).
  split.
  - run_request. rewrite Hreq, Hdo. reflexivity.
  - repeat split.
    + unfold Hilicurl.printStatistics; simpl. rewrite length_app. simpl. lia.
    + rewrite counted_iff_response. simpl. lia.
Qed.

Lemma failed_probe_not_counted_refused :
  exists rec,
    Hilicurl.request (refused 0) runContext "u" []
    = (Returned rec, [] ++ [LogERROR "connect: connection refused"])
    /\ responded rec = false
    /\ Hilicurl.ElapsedTime rec = 0
    /\ nReq (Hilicurl.printStatistics
               ([Hilicurl.mkRecord None (Some res200) (ms 7)] ++ [rec]))
       = nReq (Hilicurl.printStatistics
                 [Hilicurl.mkRecord None (Some res200) (ms 7)]) + 1
    /\ nRes (Hilicurl.printStatistics
               ([Hilicurl.mkRecord None (Some res200) (ms 7)] ++ [rec]))
       = nRes (Hilicurl.printStatistics
                 [Hilicurl.mkRecord None (Some res200) (ms 7)]).
Proof.
  exact (failed_probe_not_counted (refused 0) runContext "u" []
           "connect: connection refused"
           [Hilicurl.mkRecord None (Some res200) (ms 7)] eq_refl eq_refl).
Defined.

(** X6. The elapsed time of a record is never negative, and fits an
    [int64], as long as the clock did not go back between the last
    connection and the end of the body (or, without a connection, is not
    before the zero instant). *)
Theorem elapsed_not_negative (x : Exchange) (tCtx : context.Context)
    (url : string) (l : list Line) :
  newRequestErr x = None ->
  List.last (gotConn x) time.zero <= nowAfter x ->
  exists rec o,
    Hilicurl.request x tCtx url l = (Returned rec, o)
    /\ 0 <= Hilicurl.ElapsedTime rec <= time.maxDuration
    /\ 0 <= time.Milliseconds (Hilicurl.ElapsedTime rec).
Proof.
  intros Hreq Hclock.
  assert (Hsub : 0 <= time.Sub (nowAfter x) (List.last (gotConn x) time.zero)
                   <= time.maxDuration).
  { pose proof (Sub_range (nowAfter x) (List.last (gotConn x) time.zero))
      as Hr.
    split; [|apply Hr]. unfold time.Sub.
    destruct (Z.ltb_spec (nowAfter x - List.last (gotConn x) time.zero)
                time.minDuration) as [H|H];
      [unfold time.minDuration in H; lia|].
    destruct (Z.ltb_spec time.maxDuration
                (nowAfter x - List.last (gotConn x) time.zero));
      [unfold time.maxDuration; lia | lia]. }
  assert (Hms : forall d, 0 <= d -> 0 <= time.Milliseconds d).
  { intros d Hd. unfold time.Milliseconds, time.Millisecond.
    apply Z.quot_pos; lia. }
  run_request. rewrite Hreq; simpl.
  destruct (doResult x) as [res|res err]; simpl.
  - destruct (readAll x) as [bytes [err|]]; simpl; do 2 eexists;
      (split; [reflexivity|]); simpl;
      rewrite ?gotConn_last; unfold time.maxDuration in *;
      (split; [lia | apply Hms; lia]).
  - do 2 eexists. split; [reflexivity|]. simpl.
    unfold time.maxDuration. split; [lia | apply Hms; lia].
Qed.

Lemma elapsed_not_negative_7ms :
  exists rec o,
    Hilicurl.request (answered200 (ms 1000)) runContext "u" []
    = (Returned rec, o)
    /\ 0 <= Hilicurl.ElapsedTime rec <= time.maxDuration
    /\ 0 <= time.Milliseconds (Hilicurl.ElapsedTime rec).
Proof.
  apply elapsed_not_negative; [reflexivity | vm_compute; discriminate].
Defined.

(** ** [main] of [hilicurl.go] *)

(** X7. The help flag wins over everything else: the usage is printed,
    nothing is logged, no probe is made and the exit code is 0, whatever
    the positional arguments are. *)
Theorem help_prints_usage_only (f : Hilicurl.Flags) :
  Hilicurl.flagHelp f = true ->
  Hilicurl.main f = Hilicurl.Exit 0 [PrintUsage].
Proof.
  intros Hhelp. unfold Hilicurl.main, Hilicurl.main_body. rewrite Hhelp.
  reflexivity.
Qed.

Lemma help_prints_usage_only_with_url :
  Hilicurl.main (Hilicurl.mkFlags true (ms 1) (ms 1)
                   ["http://example.test/"%string])
  = Hilicurl.Exit 0 [PrintUsage].
Proof. apply help_prints_usage_only. reflexivity. Defined.

(** X8. [main] reaches [runRequests] exactly when the help flag is off and
    there is one positional argument; in every other case it exits before
    any probe. *)
Theorem main_probes_iff (f : Hilicurl.Flags) :
  (exists a o, Hilicurl.main f = Hilicurl.Run a o)
  <-> (Hilicurl.flagHelp f = false
       /\ List.length (Hilicurl.flagArgs f) = 1%nat).
Proof.
  unfold Hilicurl.main, Hilicurl.main_body. split.
  - intros (a & o & H). destruct (Hilicurl.flagHelp f); [discriminate|].
    split; [reflexivity|].
    destruct (Z.eqb_spec (Z.of_nat (List.length (Hilicurl.flagArgs f))) 1)
      as [E|E]; [lia|]. discriminate.
  - intros [Hhelp Hlen]. rewrite Hhelp.
    destruct (Z.eqb_spec (Z.of_nat (List.length (Hilicurl.flagArgs f))) 1)
      as [E|E]; [|lia]. simpl. eauto.
Qed.

(** X9. With one URL and no help flag, [runRequests] receives that URL, the
    interval and the timeout of the flags unchanged, and a context without
    a deadline that the interrupt cancels. *)
Theorem main_passes_flags (f : Hilicurl.Flags) (u : string) :
  Hilicurl.flagHelp f = false ->
  Hilicurl.flagArgs f = [u] ->
  exists a,
    Hilicurl.main f = Hilicurl.Run a []
    /\ Hilicurl.url a = u
    /\ Hilicurl.interval a = Hilicurl.flagInterval f
    /\ Hilicurl.timeout a = Hilicurl.flagTimeout f
    /\ context.deadline (Hilicurl.ctx a) = None
    /\ forall now,
         context.Done (Hilicurl.ctx a) false now = false
         /\ context.Done (Hilicurl.ctx a) true now = true.
Proof.
  intros Hhelp Hargs. eexists. split.
  - unfold Hilicurl.main, Hilicurl.main_body. rewrite Hhelp, Hargs.
    reflexivity.
  - simpl. repeat split.
Qed.

Lemma main_passes_flags_defaults :
  exists a,
    Hilicurl.main (Hilicurl.mkFlags false Hilicurl.defaultInterval
                     Hilicurl.defaultTimeout ["http://example.test/"%string])
    = Hilicurl.Run a []
    /\ Hilicurl.url a = "http://example.test/"%string
    /\ Hilicurl.interval a = 2 * time.Second
    /\ Hilicurl.timeout a = 60 * time.Second
    /\ context.deadline (Hilicurl.ctx a) = None
    /\ forall now,
         context.Done (Hilicurl.ctx a) false now = false
         /\ context.Done (Hilicurl.ctx a) true now = true.
Proof.
  exact (main_passes_flags
           (Hilicurl.mkFlags false Hilicurl.defaultInterval
              Hilicurl.defaultTimeout ["http://example.test/"%string])
           "http://example.test/" eq_refl eq_refl).
Defined.

(** ** [runRequests] and [setupCloseHandler] of [hilicurl.go] *)

Section Runs.

Import Hilicurl.

Variable a : Args.

Lemma run_app (evs1 evs2 : list Event) (s : State) :
  run a s (evs1 ++ evs2)
  = match run a s evs1 with
    | Some s1 => run a s1 evs2
    | None => None
    end.
Proof.
  revert s. induction evs1 as [|e evs1 IH]; intros s; simpl; [reflexivity|].
  destruct (step a s e); [apply IH | reflexivity].
Qed.

(** The only step that ends the process with code 0 is the report. *)
Lemma step_exit (s s' : State) (e : Event) :
  step a s e = Some s' ->
  exited s' = Some 0 ->
  sched s = Selecting
  /\ context.Done (ctx a) (cancelled s) (now s) = true
  /\ s' = report a s.
Proof.
  intros H Hex'. unfold step in H.
  destruct (exited s) eqn:Hex; [discriminate|].
  destruct e as [|d| |i|i x].
  - destruct (cancelled s); injection H as <-; simpl in Hex'; congruence.
  - destruct (0 <=? d); [|discriminate]. injection H as <-.
    simpl in Hex'; congruence.
  - unfold stepSched in H. destruct (sched s) as [|until].
    + destruct (context.Done (ctx a) (cancelled s) (now s));
        injection H as <-; [auto|]. simpl in Hex'; congruence.
    + destruct (until <=? now s); [|discriminate]. injection H as <-.
      simpl in Hex'; congruence.
  - unfold stepGo in H.
    destruct (tasks s !! i) as [[| | res | res old |]|]; try discriminate;
      injection H as <-; simpl in Hex'; congruence.
  - unfold stepRespond in H.
    destruct (tasks s !! i) as [[| tCtx | | |]|]; try discriminate.
    destruct (request x tCtx (url a) (out s)) as [[rec|r|] o];
      try discriminate; injection H as <-; simpl in Hex'; congruence.
Qed.

(** A run that ends with code 0 is a run up to a [select] that finds the
    context done, followed by the report. *)
Lemma run_exit (evs : list Event) :
  forall s0 s,
    exited s0 = None ->
    run a s0 evs = Some s ->
    exited s = Some 0 ->
    exists evs1 s1,
      run a s0 evs1 = Some s1
      /\ sched s1 = Selecting
      /\ context.Done (ctx a) (cancelled s1) (now s1) = true
      /\ s = report a s1.
Proof.
  induction evs as [|e evs IH]; intros s0 s Hex0 Hrun Hex; simpl in Hrun.
  - injection Hrun as <-. congruence.
  - destruct (step a s0 e) as [s1|] eqn:Hstep; [|discriminate].
    destruct (exited s1) as [c|] eqn:Hex1.
    + destruct evs as [|e' evs]; simpl in Hrun.
      * injection Hrun as <-.
        destruct (step_exit _ _ _ Hstep Hex) as (Hsel & Hd & ->).
        exists [], s0. repeat split; auto.
      * unfold step in Hrun. rewrite Hex1 in Hrun. discriminate.
    + destruct (IH s1 s Hex1 Hrun Hex) as (evs1 & s2 & Hr & Hsel & Hd & ->).
      exists (e :: evs1), s2. simpl. rewrite Hstep. auto.
Qed.

Lemma step_cancelled (s s' : State) (e : Event) :
  step a s e = Some s' -> cancelled s = true -> cancelled s' = true.
Proof.
  intros H Hc. unfold step in H.
  destruct (exited s) eqn:Hex; [discriminate|].
  destruct e as [|d| |i|i x].
  - rewrite Hc in H. injection H as <-. exact Hc.
  - destruct (0 <=? d); [|discriminate]. injection H as <-. exact Hc.
  - unfold stepSched in H. destruct (sched s) as [|until].
    + destruct (context.Done (ctx a) (cancelled s) (now s));
        injection H as <-; exact Hc.
    + destruct (until <=? now s); [|discriminate]. injection H as <-.
      exact Hc.
  - unfold stepGo in H.
    destruct (tasks s !! i) as [[| | res | res old |]|]; try discriminate;
      injection H as <-; exact Hc.
  - unfold stepRespond in H.
    destruct (tasks s !! i) as [[| tCtx | | |]|]; try discriminate.
    destruct (request x tCtx (url a) (out s)) as [[rec|r|] o];
      try discriminate; injection H as <-; exact Hc.
Qed.

(** X10. At every point of a run, the requests the report would count are
    no more than the goroutines that have run to their end, which are no
    more than the probes dispatched: no record exists without a probe. *)
Theorem requests_bounded_by_probes (t0 : time.Time) (o : list Line)
    (evs : list Event) (s : State) :
  run a (enter a t0 o) evs = Some s ->
  nReq (printStatistics (records s)) <= Z.of_nat (finished (tasks s))
  /\ Z.of_nat (finished (tasks s)) <= Z.of_nat (List.length (tasks s)).
Proof.
  intros Hrun. pose proof (requests_le_finished a t0 o evs s Hrun) as [H1 H2].
  unfold printStatistics; simpl. lia.
Qed.

(** X11. A run of [main]'s context that ends with code 0 has been
    interrupted, and the last two lines of its output are the header and
    the statistics of the records present when it ends. *)
Theorem exit_prints_statistics (t0 : time.Time) (o : list Line)
    (evs : list Event) (s : State) :
  ctx a = runContext ->
  run a (enter a t0 o) evs = Some s ->
  exited s = Some 0 ->
  cancelled s = true
  /\ exists before,
       out s = before ++ [PrintHeader (url a);
                          PrintStatistics (printStatistics (records s))].
Proof.
  intros Hctx Hrun Hex.
  destruct (run_exit evs (enter a t0 o) s eq_refl Hrun Hex)
    as (evs1 & s1 & _ & _ & Hd & ->).
  rewrite Hctx in Hd. unfold context.Done, runContext in Hd. simpl in Hd.
  split.
  - simpl. destruct (cancelled s1); [reflexivity | discriminate].
  - exists (out s1). reflexivity.
Qed.

(** X12. Once the run is cancelled it stays cancelled and no probe is
    dispatched any more, whatever happens next. *)
Theorem no_dispatch_after_cancel (s s' : State) (evs : list Event) :
  context.cancelable (ctx a) = true ->
  cancelled s = true ->
  run a s evs = Some s' ->
  cancelled s' = true
  /\ List.length (tasks s') = List.length (tasks s).
Proof.
  intros Hcan. revert s.
  induction evs as [|e evs IH]; intros s Hc Hrun; simpl in Hrun.
  - injection Hrun as <-. auto.
  - destruct (step a s e) as [s1|] eqn:Hstep; [|discriminate].
    pose proof (step_cancelled _ _ _ Hstep Hc) as Hc1.
    destruct (IH s1 Hc1 Hrun) as [Hc' Hlen]. split; [exact Hc'|].
    rewrite Hlen.
    destruct (step_inv a _ _ _ Hstep) as (_ & _ & _ & [Hl|(_ & _ & Hd & _)]);
      [exact Hl|].
    unfold context.Done in Hd. rewrite Hcan, Hc in Hd. discriminate.
Qed.

(** X13. An interrupt that arrives while the loop sleeps is only honoured
    when the sleep is over: the report is never printed before the instant
    the loop sleeps until. *)
Theorem report_waits_for_sleep (s s' : State) (until : time.Time)
    (evs : list Event) :
  exited s = None ->
  sched s = Sleeping until ->
  run a s evs = Some s' ->
  exited s' = Some 0 ->
  until <= now s'.
Proof.
  intros Hex Hs Hrun Hex'.
  destruct (run_exit evs s s' Hex Hrun Hex')
    as (evs1 & s1 & Hr1 & Hsel & _ & ->).
  simpl.
  destruct (sleeping_run a until (List.length (tasks s)) evs1 s s1
              (or_introl (conj Hs eq_refl)) Hr1) as [[Hs1 _]|Hle];
    [congruence | exact Hle].
Qed.

(** X14. The first Ctrl+C is logged and cancels the run without touching
    the loop, the records or the goroutines; it does not end the process by
    itself.  A second Ctrl+C changes nothing at all. *)
Theorem interrupt_once (s : State) :
  exited s = None ->
  cancelled s = false ->
  exists s1,
    step a s Interrupt = Some s1
    /\ cancelled s1 = true
    /\ out s1 = out s ++ [LogCtrlC]
    /\ (now s1, sched s1, records s1, tasks s1, exited s1)
       = (now s, sched s, records s, tasks s, None)
    /\ step a s1 Interrupt = Some s1.
Proof.
  intros Hex Hc.
  exists (mkState (now s) true (sched s) (records s) (tasks s)
            (out s ++ [LogCtrlC]) (exited s)).
  unfold step; simpl. rewrite Hex, Hc. repeat split.
Qed.

(** X15. A URL that does not parse: the request is nil, [Do] panics inside
    the goroutine, where [main]'s [recover] does not reach, and the process
    dies with code 2 at the first probe that runs.  No record is added and
    no statistics are printed afterwards. *)
Theorem bad_url_kills_process (s : State) (i : nat)
    (tCtx : context.Context) (x : Exchange) (err : string) :
  exited s = None ->
  tasks s !! i = Some (Requesting tCtx) ->
  newRequestErr x = Some err ->
  exists s',
    step a s (Respond i x) = Some s'
    /\ exited s' = Some 2
    /\ records s' = records s
    /\ out s' = out s ++ [RuntimePanic nilDeref]
    /\ forall evs, evs <> [] -> run a s' evs = None.
Proof.
  intros Hex Hi Hreq. eexists. unfold step, stepRespond. rewrite Hex, Hi.
  rewrite (request_nil_panics x tCtx (url a) (out s) err Hreq).
  split; [reflexivity|]. simpl. repeat split.
  intros [|e evs] Hne; [congruence|]. reflexivity.
Qed.

(** X16. An append that no other goroutine interleaves with adds exactly
    its record at the end of the slice: the report counts one request
    more, and one response more exactly when the record has a response. *)
Theorem lone_append_counts (s : State) (i : nat) (res : Record_) :
  exited s = None ->
  tasks s !! i = Some (Appending res) ->
  exists s',
    run a s [Go i; Go i] = Some s'
    /\ records s' = records s ++ [res]
    /\ tasks s' !! i = Some Exited
    /\ nReq (printStatistics (records s'))
       = nReq (printStatistics (records s)) + 1
    /\ nRes (printStatistics (records s'))
       = nRes (printStatistics (records s))
         + (if responded res then 1 else 0).
Proof.
  intros Hex Hi.
  destruct (append_alone a s i res Hex Hi) as (s' & Hrun & Hrec & Htasks).
  exists s'. split; [exact Hrun|]. split; [exact Hrec|]. split.
  - rewrite Htasks. apply list_lookup_insert_eq.
    eapply lookup_lt_Some; exact Hi.
  - rewrite Hrec, counted_iff_response. unfold responded. split.
    + unfold printStatistics; simpl. rewrite length_app. simpl. lia.
    + destruct (Response res); reflexivity.
Qed.

(** X17. Two appends that interleave, each reading the slice before the
    other writes it: both goroutines end, and the slice has grown by one
    record, that of the goroutine that wrote last. *)
Theorem interleaved_append_counts (s : State) (i j : nat)
    (ri rj : Record_) :
  exited s = None ->
  i <> j ->
  tasks s !! i = Some (Appending ri) ->
  tasks s !! j = Some (Appending rj) ->
  exists s',
    run a s [Go i; Go j; Go i; Go j] = Some s'
    /\ tasks s' !! i = Some Exited
    /\ tasks s' !! j = Some Exited
    /\ records s' = records s ++ [rj]
    /\ nReq (printStatistics (records s'))
       = nReq (printStatistics (records s)) + 1.
Proof.
  intros Hex Hij Hi Hj.
  destruct (append_interleaved a s i j ri rj Hex Hij Hi Hj)
    as (s' & Hrun & Hrec & Hti & Htj).
  exists s'. repeat split; auto.
  rewrite Hrec. unfold printStatistics; simpl. rewrite length_app. simpl. lia.
Qed.

End Runs.

Lemma requests_bounded_by_probes_lost :
  exists s,
    Hilicurl.run args20 (Hilicurl.enter args20 0 [])
      (twoAnswered ++ interleaved) = Some s
    /\ nReq (Hilicurl.printStatistics (Hilicurl.records s))
       <= Z.of_nat (finished (Hilicurl.tasks s))
    /\ Z.of_nat (finished (Hilicurl.tasks s))
       <= Z.of_nat (List.length (Hilicurl.tasks s)).
Proof.
  eexists. split; [vm_compute; reflexivity|].
  apply (requests_bounded_by_probes args20 0 []
           (twoAnswered ++ interleaved)).
  vm_compute. reflexivity.
Defined.

Lemma exit_prints_statistics_two :
  exists s,
    Hilicurl.run args20 (Hilicurl.enter args20 0 [])
      (twoAnswered ++ oneByOne ++ interrupted) = Some s
    /\ Hilicurl.cancelled s = true
    /\ exists before,
         Hilicurl.out s
         = before ++ [PrintHeader (Hilicurl.url args20);
                      PrintStatistics
                        (Hilicurl.printStatistics (Hilicurl.records s))].
Proof.
  eexists. split; [vm_compute; reflexivity|].
  apply (exit_prints_statistics args20 0 []
           (twoAnswered ++ oneByOne ++ interrupted));
    [reflexivity | vm_compute; reflexivity | reflexivity].
Defined.

Lemma no_dispatch_after_cancel_in_flight :
  exists s',
    Hilicurl.run args100 interruptedInFlight
      [Hilicurl.Respond 0 (refused 0); Hilicurl.Tick (ms 500);
       Hilicurl.Go 0; Hilicurl.Go 0] = Some s'
    /\ Hilicurl.cancelled s' = true
    /\ List.length (Hilicurl.tasks s')
       = List.length (Hilicurl.tasks interruptedInFlight).
Proof.
  eexists. split; [vm_compute; reflexivity|].
  apply (no_dispatch_after_cancel args100 interruptedInFlight _
           [Hilicurl.Respond 0 (refused 0); Hilicurl.Tick (ms 500);
            Hilicurl.Go 0; Hilicurl.Go 0]);
    [reflexivity | reflexivity | vm_compute; reflexivity].
Defined.

Lemma report_waits_for_sleep_100ms :
  exists s',
    Hilicurl.run args100 firstSleep
      [Hilicurl.Interrupt; Hilicurl.Tick (ms 100);
       Hilicurl.Sched; Hilicurl.Sched] = Some s'
    /\ Hilicurl.exited s' = Some 0
    /\ ms 100 <= Hilicurl.now s'.
Proof.
  eexists. split; [vm_compute; reflexivity|]. split; [reflexivity|].
  apply (report_waits_for_sleep args100 firstSleep _ (ms 100)
           [Hilicurl.Interrupt; Hilicurl.Tick (ms 100);
            Hilicurl.Sched; Hilicurl.Sched]);
    [reflexivity | reflexivity | vm_compute; reflexivity | reflexivity].
Defined.

Lemma interrupt_once_asleep :
  exists s1,
    Hilicurl.step args100 firstSleep Hilicurl.Interrupt = Some s1
    /\ Hilicurl.cancelled s1 = true
    /\ Hilicurl.out s1 = Hilicurl.out firstSleep ++ [LogCtrlC]
    /\ (Hilicurl.now s1, Hilicurl.sched s1, Hilicurl.records s1,
        Hilicurl.tasks s1, Hilicurl.exited s1)
       = (Hilicurl.now firstSleep, Hilicurl.sched firstSleep,
          Hilicurl.records firstSleep, Hilicurl.tasks firstSleep, None)
    /\ Hilicurl.step args100 s1 Hilicurl.Interrupt = Some s1.
Proof. exact (interrupt_once args100 firstSleep eq_refl eq_refl). Defined.

Lemma bad_url_kills_process_first_probe :
  exists s',
    Hilicurl.step args100 interruptedInFlight
      (Hilicurl.Respond 0 (unparsable 0)) = Some s'
    /\ Hilicurl.exited s' = Some 2
    /\ Hilicurl.records s' = Hilicurl.records interruptedInFlight
    /\ Hilicurl.out s'
       = Hilicurl.out interruptedInFlight ++ [RuntimePanic nilDeref]
    /\ forall evs, evs <> [] -> Hilicurl.run args100 s' evs = None.
Proof.
  exact (bad_url_kills_process args100 interruptedInFlight 0 _
           (unparsable 0) _ eq_refl eq_refl eq_refl).
Defined.

Lemma lone_append_counts_first :
  exists s',
    Hilicurl.run args20 twoAppending [Hilicurl.Go 0; Hilicurl.Go 0] = Some s'
    /\ Hilicurl.records s'
       = Hilicurl.records twoAppending
         ++ [Hilicurl.mkRecord
               (Some (http.mkRequest "GET" "http://example.test/"
                        (context.WithTimeout runContext 0 (ms 1000))))
               (Some res200) (ms 27)]
    /\ Hilicurl.tasks s' !! 0%nat = Some Hilicurl.Exited
    /\ nReq (Hilicurl.printStatistics (Hilicurl.records s'))
       = nReq (Hilicurl.printStatistics (Hilicurl.records twoAppending)) + 1
    /\ nRes (Hilicurl.printStatistics (Hilicurl.records s'))
       = nRes (Hilicurl.printStatistics (Hilicurl.records twoAppending)) + 1.
Proof.
  exact (lone_append_counts args20 twoAppending 0 _ eq_refl eq_refl).
Defined.

Lemma interleaved_append_counts_two :
  exists s',
    Hilicurl.run args20 twoAppending interleaved = Some s'
    /\ Hilicurl.tasks s' !! 0%nat = Some Hilicurl.Exited
    /\ Hilicurl.tasks s' !! 1%nat = Some Hilicurl.Exited
    /\ Hilicurl.records s'
       = Hilicurl.records twoAppending
         ++ [Hilicurl.mkRecord
               (Some (http.mkRequest "GET" "http://example.test/"
                        (context.WithTimeout runContext (ms 20) (ms 1000))))
               (Some res500) (ms 7)]
    /\ nReq (Hilicurl.printStatistics (Hilicurl.records s'))
       = nReq (Hilicurl.printStatistics (Hilicurl.records twoAppending)) + 1.
Proof.
  assert (H01 : 0%nat <> 1%nat) by discriminate.
  exact (interleaved_append_counts args20 twoAppending 0 1 _ _
           eq_refl H01 eq_refl eq_refl).
Defined.

(** ** The earlier iterations *)

Lemma countNonNil_acc (responses : list (option http.Response)) (n : Z) :
  countNonNil responses n = n + countNonNil responses 0.
Proof.
  revert n. induction responses as [|res rest IH]; intros n; simpl; [lia|].
  destruct res; rewrite IH; [rewrite (IH (0 + 1))|rewrite (IH 0)]; lia.
Qed.

Lemma countNonNil_range (responses : list (option http.Response)) :
  0 <= countNonNil responses 0 <= Z.of_nat (List.length responses).
Proof.
  induction responses as [|res rest IH]; simpl; [lia|].
  rewrite countNonNil_acc. destruct res; lia.
Qed.

Lemma countNonNil_app (r1 r2 : list (option http.Response)) :
  countNonNil (r1 ++ r2) 0 = countNonNil r1 0 + countNonNil r2 0.
Proof.
  induction r1 as [|res rest IH]; simpl; [lia|].
  destruct res.
  - rewrite (countNonNil_acc (rest ++ r2) (0 + 1)),
      (countNonNil_acc rest (0 + 1)), IH. lia.
  - exact IH.
Qed.

Lemma int_rate_nonempty (responses : list (option http.Response))
    (l : list Line) :
  responses <> [] ->
  exists st,
    printStatisticsInt responses l = (Returned tt, l ++ [PrintStatistics st])
    /\ nReq st = Z.of_nat (List.length responses)
    /\ nRes st = countNonNil responses 0
    /\ timeoutRate st = if nRes st =? 0 then float64 100 else float64 0.
Proof.
  intros Hne.
  assert (Hn : 0 < Z.of_nat (List.length responses))
    by (destruct responses; [congruence | simpl List.length; lia]).
  pose proof (countNonNil_range responses) as Hr.
  unfold printStatisticsInt, intDiv, output, panic, mbind, M_bind, mret,
    M_ret.
  destruct (Z.eqb_spec (Z.of_nat (List.length responses)) 0) as [E|_];
    [lia|].
  eexists (mkStatistics _ _ _). split; [reflexivity|].
  cbn [nReq nRes timeoutRate].
  split; [reflexivity|]. split; [reflexivity|].
  destruct (Z.eqb_spec (countNonNil responses 0) 0) as [E|E].
  - rewrite E, Z.sub_0_r, Z.quot_same by lia. vm_compute. reflexivity.
  - rewrite Z.quot_small by lia. vm_compute. reflexivity.
Qed.

(** X18. The report of the iterations that keep [[]*http.Response].  On an
    empty slice the integer division panics.  Otherwise the counts are the
    length and the number of non-nil entries, and the rate is 100 when no
    entry is a response and 0 in every other case: the quotient of the two
    [int]s is truncated before it is converted. *)
Theorem int_rate_all_or_nothing (responses : list (option http.Response))
    (l : list Line) :
  match responses with
  | [] => printStatisticsInt responses l = (Panicked divideByZero, l)
  | _ :: _ =>
      exists st,
        printStatisticsInt responses l
        = (Returned tt, l ++ [PrintStatistics st])
        /\ nReq st = Z.of_nat (List.length responses)
        /\ nRes st = countNonNil responses 0
        /\ timeoutRate st
           = if nRes st =? 0 then float64 100 else float64 0
  end.
Proof.
  destruct responses as [|r0 rest]; [reflexivity|].
  apply int_rate_nonempty. discriminate.
Qed.

Lemma later_request_spec (x : Exchange) (url : string) (l : list Line) :
  Part003.request x url l
  = (Returned (getResponse url x), l ++ [getLine url x]).
Proof.
  unfold getResponse, getLine. run_request.
  destruct (newRequestErr x); simpl; [reflexivity|].
  destruct (doResult x) as [res|res err]; reflexivity.
Qed.

(** X19. [request] of the in-line iteration that keeps the responses never
    panics and never blocks.  When [http.Get] returns a response it logs
    the status and the time and returns that response; when [http.Get]
    returns an error it logs the error and returns nil. *)
Theorem later_request_returns (x : Exchange) (url : string) (l : list Line) :
  Part003.request x url l
  = match client.Get x url with
    | http.DoOK res =>
        (Returned (Some res),
         l ++ [LogTime (http.Status res)
                 (time.Milliseconds
                    (time.Sub (nowAfter x) (nowBefore x)))])
    | http.DoErr _ err => (Returned None, l ++ [LogERROR err])
    end.
Proof.
  run_request.
  destruct (newRequestErr x); simpl; [reflexivity|].
  destruct (doResult x) as [res|res err]; reflexivity.
Qed.

Lemma later_loop (url : string) (xs : list Exchange) :
  forall responses l,
    Part003.loop url responses (map Probe xs ++ [Cancelled]) l
    = (_ ← printStatisticsInt (responses ++ map (getResponse url) xs);
       mret true)
        (l ++ map (getLine url) xs ++ [PrintHeader url]).
Proof.
  induction xs as [|x xs IH]; intros responses l; simpl.
  - rewrite app_nil_r. reflexivity.
  - unfold mbind at 1, M_bind at 1. rewrite later_request_spec.
    rewrite IH, <- !app_assoc. reflexivity.
Qed.

(** X20. A run of that iteration with any number of probes, then Ctrl+C:
    it logs one line for each probe and prints the header and the
    statistics, and the statistics count ten requests more than the probes
    made, because the slice is made with ten nil entries. *)
Theorem later_loop_counts_ten_more (url : string) (xs : list Exchange) :
  exists st,
    Part003.runRequests url (map Probe xs ++ [Cancelled]) []
    = (Returned true,
       LogGET url :: map (getLine url) xs
       ++ [PrintHeader url; PrintStatistics st])
    /\ nReq st = 10 + Z.of_nat (List.length xs)
    /\ nRes st
       = Z.of_nat (List.length
                     (List.filter (fun x => succeeded (client.Get x url)) xs)).
Proof.
  destruct (int_rate_nonempty
              (replicate 10 None ++ map (getResponse url) xs)
              (([] ++ [LogGET url]) ++ map (getLine url) xs
               ++ [PrintHeader url]))
    as (st & Hp & Hn & Hr & _); [discriminate|].
  exists st. split; [|split].
  - unfold Part003.runRequests, output.
    unfold mbind at 1, M_bind at 1. rewrite later_loop.
    unfold mbind, M_bind. rewrite Hp. unfold mret, M_ret.
    rewrite <- !app_assoc. reflexivity.
  - rewrite Hn, length_app, length_map. simpl List.length. lia.
  - rewrite Hr, countNonNil_app.
    change (countNonNil (replicate 10 None) 0) with 0.
    clear. induction xs as [|x xs IH]; [reflexivity|].
    simpl map. simpl List.filter. unfold getResponse at 1.
    destruct (client.Get x url); simpl countNonNil; simpl List.length.
    + rewrite countNonNil_acc. lia.
    + lia.
Qed.

Lemma first_request_answered (x : Exchange) (url : string) (l : list Line)
    (res : http.Response) :
  client.Get x url = http.DoOK res ->
  Part002.request x url l = (Returned tt, l ++ [timeLine x res]).
Proof.
  intros Hget. unfold Part002.request. rewrite Hget. reflexivity.
Qed.

Lemma first_loop_answered (url : string) (xs : list Exchange)
    (world : list Turn) :
  Forall (fun x => succeeded (client.Get x url) = true) xs ->
  forall l,
    Part002.loop url (map Probe xs ++ world) l
    = Part002.loop url world (l ++ timeLines url xs).
Proof.
  induction 1 as [|x xs Hx _ IH]; intros l; simpl.
  - rewrite app_nil_r. reflexivity.
  - destruct (client.Get x url) as [res|res err] eqn:Hget; [|discriminate].
    unfold mbind at 1, M_bind at 1.
    rewrite (first_request_answered x url l res Hget), IH, <- app_assoc.
    reflexivity.
Qed.

Lemma first_main_body (url : string) (world : list Turn) (l : list Line) :
  Part002.main_body false [url] world l
  = Part002.loop url world (l ++ [LogGET url]).
Proof. reflexivity. Qed.

(** X21. The first iteration, as long as every [http.Get] succeeds: it
    logs one line for each probe; when Ctrl+C then arrives, the handler
    logs it, the loop logs the shutdown, and the process exits with
    code 0. *)
Theorem first_iteration_survives_answers (url : string)
    (xs : list Exchange) :
  Forall (fun x => succeeded (client.Get x url) = true) xs ->
  Part002.main false [url] (map Probe xs ++ [Cancelled])
  = (Some 0, LogGET url :: timeLines url xs ++ [LogCtrlC; LogShutdown]).
Proof.
  intros Hok. unfold Part002.main.
  rewrite first_main_body, (first_loop_answered url xs [Cancelled] Hok).
  simpl Part002.loop.
  unfold output, mbind, M_bind, mret, M_ret. rewrite <- !app_assoc.
  reflexivity.
Qed.

Lemma first_iteration_survives_answers_two :
  Part002.main false ["http://example.test/"%string]
    (map Probe [answered200 0; answered500 (ms 2000)] ++ [Cancelled])
  = (Some 0,
     [LogGET "http://example.test/";
      LogTime "200 OK" 9;
      LogTime "500 Internal Server Error" 9;
      LogCtrlC;
      LogShutdown]).
Proof.
  apply (first_iteration_survives_answers "http://example.test/"
           [answered200 0; answered500 (ms 2000)]).
  repeat constructor.
Defined.

(** X22. The first iteration ends at the first probe for which [http.Get]
    returns an error and no response, however many probes were answered
    before and whatever would follow: the error is logged, [request] panics
    on the nil response, and [main] prints the panic and the usage and
    exits with code 1. *)
Theorem first_iteration_dies_at_first_failure (url : string)
    (xs : list Exchange) (x : Exchange) (err : string) (rest : list Turn) :
  Forall (fun x => succeeded (client.Get x url) = true) xs ->
  client.Get x url = http.DoErr None err ->
  Part002.main false [url] (map Probe xs ++ Probe x :: rest)
  = (Some 1,
     (LogGET url :: timeLines url xs ++ [LogERROR err])
     ++ [PrintError nilDeref; PrintUsage]).
Proof.
  intros Hok Hget. unfold Part002.main.
  rewrite first_main_body, (first_loop_answered url xs (Probe x :: rest) Hok).
  simpl Part002.loop. unfold mbind at 1, M_bind at 1.
  rewrite (first_request_panics x url _ err Hget). reflexivity.
Qed.

Lemma first_iteration_dies_at_first_failure_third :
  Part002.main false ["http://example.test/"%string]
    (map Probe [answered200 0; answered500 (ms 2000)]
     ++ Probe (refused (ms 4000)) :: [Probe (answered200 (ms 6000))])
  = (Some 1,
     (LogGET "http://example.test/"
      :: timeLines "http://example.test/"
           [answered200 0; answered500 (ms 2000)]
      ++ [LogERROR "connect: connection refused"])
     ++ [PrintError nilDeref; PrintUsage]).
Proof.
  apply first_iteration_dies_at_first_failure;
    [repeat constructor | reflexivity].
Defined.

(** X23. In the iteration with the channel, a probe whose request could be
    built logs its line and then blocks for ever on its send, whether it
    was answered or not: [request] never returns, so no response reaches
    the slice. *)
Theorem channel_request_blocks (x : Exchange) (tCtx : context.Context)
    (url : string) (l : list Line) :
  newRequestErr x = None ->
  Part000.request x tCtx url l
  = (Blocked,
     l ++ [match doResult x with
           | http.DoOK res => timeLine x res
           | http.DoErr _ err => LogERROR err
           end]).
Proof.
  intros Hreq. run_request. rewrite Hreq; simpl.
  destruct (doResult x) as [res|res err]; reflexivity.
Qed.

Lemma channel_request_blocks_answered :
  Part000.request (answered200 0) runContext "u" []
  = (Blocked, [] ++ [timeLine (answered200 0) res200]).
Proof. exact (channel_request_blocks (answered200 0) runContext "u" [] eq_refl). Defined.

(** X24. [request] of [hilicurl.go] and [request] of the iteration before
    it write the same lines and panic on the same exchanges.  They differ
    in what they hand back: the older one returns the response when [Do]
    and [ReadAll] both succeed and nil otherwise, where the newer one keeps
    in the record whatever response [Do] returned. *)
Theorem request_agrees_with_previous (x : Exchange) (tCtx : context.Context)
    (url : string) (l : list Line) :
  Part001.request x tCtx url l
  = match Hilicurl.request x tCtx url l with
    | (Returned rec, o) =>
        (Returned (if complete x then Hilicurl.Response rec else None), o)
    | (Panicked r, o) => (Panicked r, o)
    | (Blocked, o) => (Blocked, o)
    end.
Proof.
  unfold complete. run_request.
  destruct (newRequestErr x); simpl; [reflexivity|].
  destruct (doResult x) as [res|res err]; simpl; [|reflexivity].
  destruct (readAll x) as [bytes [err|]]; reflexivity.
Qed.

(** ** The deadline of the probes in flight *)

Lemma inFlightBound_later (a : Hilicurl.Args) (t1 t2 : time.Time)
    (t : Hilicurl.Task) :
  t1 <= t2 -> inFlightBound a t1 t -> inFlightBound a t2 t.
Proof.
  intros Hle. destruct t; simpl; auto.
  intros (Hc & d & Hd & Hb). split; [exact Hc|]. exists d. split; [exact Hd|].
  lia.
Qed.

Lemma inFlightBound_step (a : Hilicurl.Args) (s s' : Hilicurl.State)
    (e : Hilicurl.Event) :
  Forall (inFlightBound a (Hilicurl.now s)) (Hilicurl.tasks s) ->
  Hilicurl.step a s e = Some s' ->
  Forall (inFlightBound a (Hilicurl.now s')) (Hilicurl.tasks s').
Proof.
  intros Hall H. unfold Hilicurl.step in H.
  destruct (Hilicurl.exited s) eqn:Hex; [discriminate|].
  destruct e as [|d| |i|i x].
  - destruct (Hilicurl.cancelled s); injection H as <-; exact Hall.
  - destruct (Z.leb_spec 0 d); [|discriminate]. injection H as <-. simpl.
    eapply Forall_impl; [exact Hall|]. intros t.
    apply inFlightBound_later. lia.
  - unfold Hilicurl.stepSched in H. destruct (Hilicurl.sched s) as [|until].
    + destruct (context.Done _ _ _); injection H as <-; [exact Hall|].
      simpl. apply Forall_app. split; [exact Hall|].
      constructor; [exact I | constructor].
    + destruct (until <=? Hilicurl.now s); [|discriminate].
      injection H as <-. exact Hall.
  - unfold Hilicurl.stepGo in H.
    destruct (Hilicurl.tasks s !! i) as [[| tCtx | res | res old |]|];
      try discriminate; injection H as <-; simpl;
      apply Forall_insert; try exact Hall; try exact I.
    split; [reflexivity|]. unfold context.WithTimeout, time.Add; simpl.
    eexists. split; [reflexivity|].
    destruct (context.deadline (Hilicurl.ctx a)); lia.
  - unfold Hilicurl.stepRespond in H.
    destruct (Hilicurl.tasks s !! i) as [[| tCtx | | |]|]; try discriminate.
    destruct (Hilicurl.request x tCtx (Hilicurl.url a) (Hilicurl.out s))
      as [[rec|r|] o]; try discriminate; injection H as <-; simpl;
      [apply Forall_insert; [exact Hall | exact I] | exact Hall].
Qed.

(** X25. In every state of a run, a probe whose request is in flight has a
    context with a deadline no later than one timeout from now, and that
    context is done as soon as that deadline is reached or the run is
    cancelled: no request runs unbounded or outlives Ctrl+C. *)
Theorem probes_in_flight_have_deadline (a : Hilicurl.Args) (t0 : time.Time)
    (o : list Line) (evs : list Hilicurl.Event) (s : Hilicurl.State)
    (i : nat) (tCtx : context.Context) :
  Hilicurl.run a (Hilicurl.enter a t0 o) evs = Some s ->
  Hilicurl.tasks s !! i = Some (Hilicurl.Requesting tCtx) ->
  exists d,
    context.deadline tCtx = Some d
    /\ d <= Hilicurl.now s + Hilicurl.timeout a
    /\ forall cancelled now,
         context.Done tCtx cancelled now
         = (context.cancelable (Hilicurl.ctx a) && cancelled) || (d <=? now).
Proof.
  intros Hrun Hi.
  assert (Hall : Forall (inFlightBound a (Hilicurl.now s)) (Hilicurl.tasks s)).
  { revert Hrun.
    assert (H0 : Forall (inFlightBound a (Hilicurl.now (Hilicurl.enter a t0 o)))
                   (Hilicurl.tasks (Hilicurl.enter a t0 o)))
      by constructor.
    revert H0. generalize (Hilicurl.enter a t0 o) as s0.
    induction evs as [|e evs IH]; intros s0 H0 Hrun; simpl in Hrun.
    - injection Hrun as <-. exact H0.
    - destruct (Hilicurl.step a s0 e) as [s1|] eqn:Hstep; [|discriminate].
      apply (IH s1); [|exact Hrun].
      exact (inFlightBound_step a s0 s1 e H0 Hstep). }
  rewrite Forall_lookup in Hall.
  destruct (Hall i _ Hi) as (Hc & d & Hd & Hb).
  exists d. split; [exact Hd|]. split; [exact Hb|].
  intros c t. unfold context.Done. rewrite Hc, Hd. reflexivity.
Qed.

Lemma probes_in_flight_have_deadline_first :
  exists d,
    context.deadline (context.WithTimeout runContext 0 (ms 50)) = Some d
    /\ d <= Hilicurl.now interruptedInFlight + Hilicurl.timeout args100
    /\ forall cancelled now,
         context.Done (context.WithTimeout runContext 0 (ms 50)) cancelled now
         = (context.cancelable (Hilicurl.ctx args100) && cancelled)
           || (d <=? now).
Proof.
  apply (probes_in_flight_have_deadline args100 0 []
           [Hilicurl.Sched; Hilicurl.Go 0; Hilicurl.Interrupt;
            Hilicurl.Tick (ms 100); Hilicurl.Sched]
           interruptedInFlight 0);
    [vm_compute; reflexivity | reflexivity].
Defined.

(** ** The pace of the loop *)

Lemma paced_step (a : Hilicurl.Args) (t0 : time.Time)
    (s s' : Hilicurl.State) (e : Hilicurl.Event) :
  paced a t0 s -> Hilicurl.step a s e = Some s' -> paced a t0 s'.
Proof.
  unfold paced. intros [H0 Hp] H. unfold Hilicurl.step in H.
  destruct (Hilicurl.exited s) eqn:Hex; [discriminate|].
  destruct e as [|d| |i|i x].
  - destruct (Hilicurl.cancelled s); injection H as <-; simpl; auto.
  - destruct (Z.leb_spec 0 d); [|discriminate]. injection H as <-. simpl.
    split; [lia|]. destruct (Hilicurl.sched s); lia.
  - unfold Hilicurl.stepSched in H.
    destruct (Hilicurl.sched s) as [|until] eqn:Hs.
    + destruct (context.Done _ _ _); injection H as <-; simpl.
      * rewrite Hs. auto.
      * split; [exact H0|]. rewrite length_app. simpl List.length.
        unfold time.Add. lia.
    + destruct (Z.leb_spec until (Hilicurl.now s)); [|discriminate].
      injection H as <-. simpl. split; [exact H0|]. lia.
  - unfold Hilicurl.stepGo in H.
    destruct (Hilicurl.tasks s !! i) as [[| tCtx | res | res old |]|];
      try discriminate; injection H as <-; simpl;
      rewrite length_insert; auto.
  - unfold Hilicurl.stepRespond in H.
    destruct (Hilicurl.tasks s !! i) as [[| tCtx | | |]|]; try discriminate.
    destruct (Hilicurl.request x tCtx (Hilicurl.url a) (Hilicurl.out s))
      as [[rec|r|] o]; try discriminate; injection H as <-; simpl;
      rewrite ?length_insert; auto.
Qed.

(** X26. The loop dispatches at most one probe per interval, the first one
    at once: at every point of a run that entered the loop at [t0], the
    number of probes dispatched times the interval is at most the time
    passed plus one interval. *)
Theorem dispatch_pace (a : Hilicurl.Args) (t0 : time.Time) (o : list Line)
    (evs : list Hilicurl.Event) (s : Hilicurl.State) :
  0 <= Hilicurl.interval a ->
  Hilicurl.run a (Hilicurl.enter a t0 o) evs = Some s ->
  Z.of_nat (List.length (Hilicurl.tasks s)) * Hilicurl.interval a
  <= Hilicurl.now s - t0 + Hilicurl.interval a.
Proof.
  intros Hint Hrun.
  assert (Hp : paced a t0 s).
  { revert Hrun.
    assert (H0 : paced a t0 (Hilicurl.enter a t0 o))
      by (unfold paced; simpl; lia).
    revert H0. generalize (Hilicurl.enter a t0 o) as s0.
    induction evs as [|e evs IH]; intros s0 H0 Hrun; simpl in Hrun.
    - injection Hrun as <-. exact H0.
    - destruct (Hilicurl.step a s0 e) as [s1|] eqn:Hstep; [|discriminate].
      apply (IH s1); [|exact Hrun]. exact (paced_step a t0 s0 s1 e H0 Hstep). }
  destruct Hp as [H0 Hp]. destruct (Hilicurl.sched s); lia.
Qed.

Lemma dispatch_pace_two_in_29ms :
  exists s,
    Hilicurl.run args20 (Hilicurl.enter args20 0 []) twoAnswered = Some s
    /\ Z.of_nat (List.length (Hilicurl.tasks s)) * ms 20
       <= Hilicurl.now s - 0 + ms 20.
Proof.
  eexists. split; [vm_compute; reflexivity|].
  apply (dispatch_pace args20 0 [] twoAnswered);
    [vm_compute; discriminate | vm_compute; reflexivity].
Defined.

(** X27. With an interval of zero or less the loop does not pause:
    [time.Sleep] returns at once, so from its [select] the loop dispatches a
    probe and is back at its [select] at the same instant, ready to
    dispatch again. *)
Theorem no_interval_no_pause (a : Hilicurl.Args) (s : Hilicurl.State) :
  Hilicurl.interval a <= 0 ->
  Hilicurl.exited s = None ->
  Hilicurl.sched s = Hilicurl.Selecting ->
  context.Done (Hilicurl.ctx a) (Hilicurl.cancelled s) (Hilicurl.now s)
  = false ->
  exists s',
    Hilicurl.run a s [Hilicurl.Sched; Hilicurl.Sched] = Some s'
    /\ Hilicurl.sched s' = Hilicurl.Selecting
    /\ Hilicurl.now s' = Hilicurl.now s
    /\ Hilicurl.tasks s' = Hilicurl.tasks s ++ [Hilicurl.Spawned]
    /\ Hilicurl.exited s' = None.
Proof.
  intros Hint Hex Hsel Hd. eexists. simpl.
  unfold Hilicurl.step at 1, Hilicurl.stepSched. rewrite Hex, Hsel, Hd.
  unfold Hilicurl.step, Hilicurl.stepSched. simpl. rewrite Hex.
  unfold time.Add.
  destruct (Z.leb_spec (Hilicurl.now s + Hilicurl.interval a)
              (Hilicurl.now s)); [|lia].
  split; [reflexivity|]. simpl. repeat split. exact Hex.
Qed.

Lemma no_interval_no_pause_zero :
  exists s',
    Hilicurl.run
      (Hilicurl.mkArgs runContext "http://example.test/" 0 (ms 50))
      (Hilicurl.enter
         (Hilicurl.mkArgs runContext "http://example.test/" 0 (ms 50)) 0 [])
      [Hilicurl.Sched; Hilicurl.Sched] = Some s'
    /\ Hilicurl.sched s' = Hilicurl.Selecting
    /\ Hilicurl.now s' = 0
    /\ Hilicurl.tasks s' = [] ++ [Hilicurl.Spawned]
    /\ Hilicurl.exited s' = None.
Proof.
  apply (no_interval_no_pause
           (Hilicurl.mkArgs runContext "http://example.test/" 0 (ms 50))
           (Hilicurl.enter
              (Hilicurl.mkArgs runContext "http://example.test/" 0 (ms 50))
              0 []));
    [vm_compute; discriminate | reflexivity | reflexivity | reflexivity].
Defined.
